(** * The hydration state machine of [src/App.js]

    A shallow embedding of the water tracker's core: the day rollover
    ([hydrateStateForToday]), the intake handler ([handleAddWater]), their
    helpers ([clamp], [parseIntSafe], [buildInitialState]), the startup
    sequence ([loadState]), the date key ([getDateKey]) and the fill level
    ([progress]).

    Conventions of the model.
    - A JavaScript string is the list of its UTF-16 code units.
    - The numbers the state machine computes with are integers; they are
      modelled in [Z].  JavaScript evaluates them as IEEE doubles, which
      agree with [Z] as long as the state's fields stay safe integers
      (below [2^53] in magnitude); an intake amount beyond that range is
      rounded by [Number.parseInt] but keeps its sign and still clamps the
      remaining volume to [0].
    - [getDateKey()] reads the clock; its value is the argument [today]. *)

From Stdlib Require Import ZArith NArith List Bool Lia.
From Stdlib Require Import Strings.String Strings.Ascii.
From Stdlib Require DecimalZ Floats Uint63.
Import ListNotations.

Local Open Scope Z_scope.

(** ** JavaScript strings *)

Definition JSString : Type := list N.

(** The code units of an ASCII literal. *)
Definition js (s : string) : JSString :=
  map N_of_ascii (list_ascii_of_string s).

(** [a === b] on two strings. *)
Fixpoint str_eqb (a b : JSString) : bool :=
  match a, b with
  | [], [] => true
  | x :: a', y :: b' => N.eqb x y && str_eqb a' b'
  | _, _ => false
  end.

(** ** [Number.parseInt(value, 10)]

    The platform function, after ECMA-262: leading white space and line
    terminators are skipped, one sign is read, then the longest run of
    decimal digits; no digit at all gives [NaN], here [None]. *)
Module Number.

Definition isStrWhiteSpaceChar (c : N) : bool :=
  existsb (N.eqb c)
    [ 9; 10; 11; 12; 13; 32; 160; 5760;
      8192; 8193; 8194; 8195; 8196; 8197; 8198; 8199; 8200; 8201; 8202;
      8232; 8233; 8239; 8287; 12288; 65279 ]%N.

Fixpoint trimStart (s : JSString) : JSString :=
  match s with
  | c :: rest => if isStrWhiteSpaceChar c then trimStart rest else s
  | [] => []
  end.

Definition isDigit (c : N) : bool := (48 <=? c)%N && (c <=? 57)%N.

Fixpoint takeDigits (s : JSString) : JSString :=
  match s with
  | c :: rest => if isDigit c then c :: takeDigits rest else []
  | [] => []
  end.

Definition digitsValue (ds : JSString) : Z :=
  fold_left (fun acc c => 10 * acc + (Z.of_N c - 48)) ds 0.

Definition minus : N := 45%N.
Definition plus : N := 43%N.

Definition parseInt10 (value : JSString) : option Z :=
  let S := trimStart value in
  let sign := match S with
              | c :: _ => if N.eqb c minus then -1 else 1
              | [] => 1
              end in
  let S' := match S with
            | c :: rest => if N.eqb c plus || N.eqb c minus then rest else S
            | [] => S
            end in
  match takeDigits S' with
  | [] => None
  | ds => Some (sign * digitsValue ds)
  end.

End Number.

(** ** Constants and helpers of [App.js] *)

Definition DAILY_GOAL_ML : Z := 2000.

(** [clamp = (value, min, max) => Math.min(Math.max(value, min), max)] *)
Definition clamp (value min max : Z) : Z := Z.min (Z.max value min) max.

(** [parseIntSafe]: [NaN] becomes [0]. *)
Definition parseIntSafe (value : JSString) : Z :=
  match Number.parseInt10 value with
  | None => 0
  | Some parsed => parsed
  end.

(** ** The tracked state *)

Record HydrationState : Type := mkState {
  remainingMl : Z;
  streak : Z;
  lastDate : JSString;
  completedToday : bool
}.

Definition buildInitialState (today : JSString) : HydrationState :=
  {| remainingMl := DAILY_GOAL_ML;
     streak := 0;
     lastDate := today;
     completedToday := false |}.

Definition hydrateStateForToday (today : JSString) (state : HydrationState)
  : HydrationState :=
  if str_eqb (lastDate state) today then state
  else
    let streak' := if completedToday state then streak state + 1 else 0 in
    {| remainingMl := DAILY_GOAL_ML;
       streak := streak';
       lastDate := today;
       completedToday := false |}.

(** The component's hooks that the handler reads and writes: the four state
    fields and the text of the input box. *)
Record Component : Type := mkComponent {
  hydration : HydrationState;
  inputValue : JSString
}.

Definition handleAddWater (c : Component) : Component :=
  let amount := parseIntSafe (inputValue c) in
  if amount <=? 0 then c
  else
    let nextRemaining :=
      clamp (remainingMl (hydration c) - amount) 0 DAILY_GOAL_ML in
    let didComplete := nextRemaining =? 0 in
    {| hydration :=
         {| remainingMl := nextRemaining;
            streak := streak (hydration c);
            lastDate := lastDate (hydration c);
            completedToday := didComplete || completedToday (hydration c) |};
       inputValue := [] |}.

(** The two transitions under the names the specification uses. *)
Definition rollover (state : HydrationState) (today : JSString)
  : HydrationState :=
  hydrateStateForToday today state.

Definition applyIntake (state : HydrationState) (rawInput : JSString)
  : HydrationState :=
  hydration (handleAddWater {| hydration := state; inputValue := rawInput |}).

(** ** Runs of the state machine *)

Inductive Event : Type :=
| Load (today : JSString)
| AddWater (rawInput : JSString).

Definition step (s : HydrationState) (e : Event) : HydrationState :=
  match e with
  | Load today => rollover s today
  | AddWater rawInput => applyIntake s rawInput
  end.

Definition run (s : HydrationState) (es : list Event) : HydrationState :=
  fold_left step es s.

(** The remaining volumes seen since the most recent rollover, newest first.
    [same_day_counts] fixes the reading of "the most recent rollover": when
    it is set, a load on the unchanged day also restarts the history. *)
Definition step_history (same_day_counts : bool)
    (sh : HydrationState * list Z) (e : Event) : HydrationState * list Z :=
  let (s, seen) := sh in
  let s' := step s e in
  match e with
  | Load today =>
      if str_eqb (lastDate s) today && negb same_day_counts
      then (s', seen)
      else (s', [remainingMl s'])
  | AddWater _ => (s', remainingMl s' :: seen)
  end.

Definition run_history (same_day_counts : bool) (today0 : JSString)
    (es : list Event) : HydrationState * list Z :=
  fold_left (step_history same_day_counts) es
    (buildInitialState today0, [remainingMl (buildInitialState today0)]).

Definition reached_zero (seen : list Z) : bool := existsb (Z.eqb 0) seen.

(** ** Startup: [loadState]

    The stored payload is untyped, so this part of the model works on
    JavaScript values.  A number is an integer or [NaN], and the value of a
    property is a primitive.  A payload with an array or an object as the
    value of a property has no counterpart here: every statement about the
    startup is a statement about payloads whose property values are
    primitives, and says nothing about the others (a hook that holds an
    object cannot be drawn as text). *)
Module Startup.

(** A completion: a value, or a thrown exception. *)
Inductive Completion (A : Type) : Type :=
| Normal (a : A)
| Throw.
Arguments Normal {A} a.
Arguments Throw {A}.

Definition bind {A B : Type} (c : Completion A) (k : A -> Completion B)
  : Completion B :=
  match c with
  | Normal a => k a
  | Throw => Throw
  end.

Notation "x <- c ;; k" := (bind c (fun x => k))
  (at level 61, c at next level, right associativity).

(** [try { body } catch (error) { handler }] *)
Definition try_catch {A : Type} (body handler : Completion A)
  : Completion A :=
  match body with
  | Normal a => Normal a
  | Throw => handler
  end.

Inductive JSValue : Type :=
| JUndefined
| JNull
| JBool (b : bool)
| JNumber (n : Z)
| JNaN
| JString (s : JSString).

(** What [JSON.parse] returns, as far as the four property reads of the
    app can tell: a primitive, an array, or an object with its own
    properties. *)
Inductive Parsed : Type :=
| PPrimitive (v : JSValue)
| PArray
| PObject (props : list (JSString * JSValue)).

Fixpoint lookup (key : JSString) (props : list (JSString * JSValue))
  : JSValue :=
  match props with
  | [] => JUndefined
  | (k, v) :: rest => if str_eqb k key then v else lookup key rest
  end.

(** [o.key] for the property names the app reads; none of them is
    inherited from a built-in prototype.  Reading a property of [null] or
    [undefined] throws a [TypeError]. *)
Definition get (o : Parsed) (key : JSString) : Completion JSValue :=
  match o with
  | PPrimitive JUndefined | PPrimitive JNull => Throw
  | PPrimitive _ | PArray => Normal JUndefined
  | PObject props => Normal (lookup key props)
  end.

Definition ToBoolean (v : JSValue) : bool :=
  match v with
  | JUndefined | JNull | JNaN => false
  | JBool b => b
  | JNumber n => negb (n =? 0)
  | JString s => match s with [] => false | _ => true end
  end.

(** [v === today], [today] being a string. *)
Definition strict_eq_string (v : JSValue) (today : JSString) : bool :=
  match v with
  | JString s => str_eqb s today
  | _ => false
  end.

(** [v + 1] *)
Definition add_one (v : JSValue) : JSValue :=
  match v with
  | JUndefined | JNaN => JNaN
  | JNull => JNumber 1
  | JBool b => JNumber (if b then 2 else 1)
  | JNumber n => JNumber (n + 1)
  | JString s => JString (s ++ js "1")
  end.

Definition k_remainingMl : JSString := js "remainingMl".
Definition k_streak : JSString := js "streak".
Definition k_lastDate : JSString := js "lastDate".
Definition k_completedToday : JSString := js "completedToday".

(** [hydrateStateForToday] on whatever value the storage held. *)
Definition hydrateStateForToday_js (today : JSString) (state : Parsed)
  : Completion Parsed :=
  last <- get state k_lastDate ;;
  if strict_eq_string last today then Normal state
  else
    completed <- get state k_completedToday ;;
    streak' <- (if ToBoolean completed
                then (st <- get state k_streak ;; Normal (add_one st))
                else Normal (JNumber 0)) ;;
    Normal (PObject [ (k_remainingMl, JNumber DAILY_GOAL_ML);
                      (k_streak, streak');
                      (k_lastDate, JString today);
                      (k_completedToday, JBool false) ]).

(** The four state hooks of the component. *)
Record Hooks : Type := mkHooks {
  h_remainingMl : JSValue;
  h_streak : JSValue;
  h_lastDate : JSValue;
  h_completedToday : JSValue
}.

(** [setStateFromStorage]: the four setters, each fed one property of
    [hydrated].  The write-back through [persistState] cannot throw (it
    catches its own errors) and does not touch the hooks. *)
Definition setStateFromStorage (hydrated : Parsed) : Completion Hooks :=
  r <- get hydrated k_remainingMl ;;
  s <- get hydrated k_streak ;;
  d <- get hydrated k_lastDate ;;
  c <- get hydrated k_completedToday ;;
  Normal (mkHooks r s d c).

(** The object literal of a typed state, and the hooks that hold it. *)
Definition object_of_state (s : HydrationState) : Parsed :=
  PObject [ (k_remainingMl, JNumber (remainingMl s));
            (k_streak, JNumber (streak s));
            (k_lastDate, JString (lastDate s));
            (k_completedToday, JBool (completedToday s)) ].

Definition hooks_of_state (s : HydrationState) : Hooks :=
  mkHooks (JNumber (remainingMl s)) (JNumber (streak s))
          (JString (lastDate s)) (JBool (completedToday s)).

(** The hooks hold a state of the data model. *)
Definition valid_hooks (h : Hooks) : Prop :=
  exists s, h = hooks_of_state s
            /\ 0 <= remainingMl s <= DAILY_GOAL_ML /\ 0 <= streak s.

(** A parsed payload has the shape of the data model. *)
Definition has_state_shape (p : Parsed) : Prop :=
  exists s, p = object_of_state s
            /\ 0 <= remainingMl s <= DAILY_GOAL_ML /\ 0 <= streak s.

(** The outcome of [await AsyncStorage.getItem(STORAGE_KEY)]: the promise
    rejects, or resolves to [null] or to the stored text. *)
Inductive GetItem : Type :=
| Rejected
| Resolved (stored : option JSString).

Definition getItem_completion (got : GetItem)
  : Completion (option JSString) :=
  match got with
  | Rejected => Throw
  | Resolved stored => Normal stored
  end.

(** [loadState], given the platform's [JSON.parse]. *)
Definition loadState (JSON_parse : JSString -> Completion Parsed)
    (today : JSString) (got : GetItem) : Completion Hooks :=
  try_catch
    (stored <- getItem_completion got ;;
     parsed <- match stored with
               | None | Some [] =>
                   Normal (object_of_state (buildInitialState today))
               | Some text => JSON_parse text
               end ;;
     hydrated <- hydrateStateForToday_js today parsed ;;
     setStateFromStorage hydrated)
    (let fallback := object_of_state (buildInitialState today) in
     setStateFromStorage fallback).

(** A stand-in for [JSON.parse] that knows one text and its value. *)
Definition parse_only (text : JSString) (value : Parsed)
  : JSString -> Completion Parsed :=
  fun s => if str_eqb s text then Normal value else Throw.







End Startup.

(** ** The date key: [getDateKey]

    [String(n)] for an integer [n] is its decimal numeral, with a minus sign
    when it is negative.  This is what JavaScript prints for the safe
    integers (below [2^53] in magnitude), which cover the years of a [Date]
    and the fields of a state; further out it prints the shortest digits
    that identify the double and, from [10^21] on, exponent notation, which
    [Number_toString] does not model. *)

Fixpoint uint_codes (d : Decimal.uint) : JSString :=
  match d with
  | Decimal.Nil => []
  | Decimal.D0 d' => 48%N :: uint_codes d'
  | Decimal.D1 d' => 49%N :: uint_codes d'
  | Decimal.D2 d' => 50%N :: uint_codes d'
  | Decimal.D3 d' => 51%N :: uint_codes d'
  | Decimal.D4 d' => 52%N :: uint_codes d'
  | Decimal.D5 d' => 53%N :: uint_codes d'
  | Decimal.D6 d' => 54%N :: uint_codes d'
  | Decimal.D7 d' => 55%N :: uint_codes d'
  | Decimal.D8 d' => 56%N :: uint_codes d'
  | Decimal.D9 d' => 57%N :: uint_codes d'
  end.

Definition Number_toString (n : Z) : JSString :=
  match Z.to_int n with
  | Decimal.Pos d => uint_codes d
  | Decimal.Neg d => Number.minus :: uint_codes d
  end.

(** [s.padStart(targetLength, padString)]: the filler is [padString]
    repeated and cut to the missing length. *)
Definition padStart (s : JSString) (targetLength : nat) (padString : JSString)
  : JSString :=
  let fillLen := (targetLength - List.length s)%nat in
  match padString with
  | [] => s
  | _ => firstn fillLen (List.concat (repeat padString fillLen)) ++ s
  end.

(** What [getDateKey] reads off a [Date]: the local year, the month counted
    from [0], and the day of the month. *)
Record JSDate : Type := mkDate {
  getFullYear : Z;
  getMonth : Z;
  getDate : Z
}.

Definition getDateKey (date : JSDate) : JSString :=
  let year := getFullYear date in
  let month := padStart (Number_toString (getMonth date + 1)) 2 (js "0") in
  let day := padStart (Number_toString (getDate date)) 2 (js "0") in
  Number_toString year ++ js "-" ++ month ++ js "-" ++ day.

(** The ranges [Date] keeps its month and day in. *)
Definition calendar_date (d : JSDate) : Prop :=
  0 <= getMonth d <= 11 /\ 1 <= getDate d <= 31.

Definition date_eqb (a b : JSDate) : bool :=
  (getFullYear a =? getFullYear b)
  && (getMonth a =? getMonth b)
  && (getDate a =? getDate b).

Definition hyphen : N := 45%N.

(** A test on every integer from [0] to [n - 1], for facts that are checked
    by evaluation. *)
Fixpoint all_from (count : nat) (z : Z) (P : Z -> bool) : bool :=
  match count with
  | O => true
  | S count' => P z && all_from count' (z + 1) P
  end.

Definition all_upto (n : Z) (P : Z -> bool) : bool :=
  all_from (Z.to_nat n) 0 P.

(** A text is [width] decimal digits that spell [n]. *)
Definition spells (width : nat) (n : Z) (text : JSString) : bool :=
  Nat.eqb (List.length text) width
  && forallb Number.isDigit text
  && (Number.digitsValue text =? n).

Definition two_digit_check (n : Z) : bool :=
  spells 2 n (padStart (Number_toString n) 2 (js "0")).

Definition four_digit_check (k : Z) : bool :=
  spells 4 (1000 + k) (Number_toString (1000 + k)).

(** ** Measures of a run *)

Definition count_loads (es : list Event) : nat :=
  List.length
    (filter (fun e => match e with Load _ => true | AddWater _ => false end)
                 es).

(** The date of the last load of a run, [d0] when there is none. *)
Definition last_load_date (d0 : JSString) (es : list Event) : JSString :=
  fold_left (fun d e => match e with Load today => today | AddWater _ => d end)
            es d0.

(** What one input takes off the remaining volume before clamping. *)
Definition accepted (rawInput : JSString) : Z := Z.max 0 (parseIntSafe rawInput).

Definition total_accepted (rawInputs : list JSString) : Z :=
  fold_right (fun rawInput acc => accepted rawInput + acc) 0 rawInputs.

(** ** The fill level: [progress]

    [consumed / DAILY_GOAL_ML] is a quotient of doubles, so this part of the
    model computes with the kernel's binary64 numbers. *)
Module Fill.

(** The double of an integer (exact up to [2^53] in magnitude). *)
Definition number_of_Z (z : Z) : PrimFloat.float :=
  if z <? 0
  then PrimFloat.opp (PrimFloat.of_uint63 (Uint63.of_Z (- z)))
  else PrimFloat.of_uint63 (Uint63.of_Z z).

Definition is_negative_zero (a : PrimFloat.float) : bool :=
  match PrimFloat.classify a with
  | FloatClass.NZero => true
  | _ => false
  end.

(** [Math.max(a, b)] and [Math.min(a, b)]: [NaN] is contagious, and [-0]
    counts as smaller than [+0]. *)
Definition Math_max (a b : PrimFloat.float) : PrimFloat.float :=
  if PrimFloat.is_nan a || PrimFloat.is_nan b then PrimFloat.nan
  else if PrimFloat.ltb a b then b
  else if PrimFloat.ltb b a then a
  else if is_negative_zero a then b else a.

Definition Math_min (a b : PrimFloat.float) : PrimFloat.float :=
  if PrimFloat.is_nan a || PrimFloat.is_nan b then PrimFloat.nan
  else if PrimFloat.ltb a b then a
  else if PrimFloat.ltb b a then b
  else if is_negative_zero b then b else a.

(** [clamp] at doubles. *)
Definition clamp_number (value min max : PrimFloat.float) : PrimFloat.float :=
  Math_min (Math_max value min) max.

Definition progress (remainingMl : Z) : PrimFloat.float :=
  let consumed :=
    PrimFloat.sub (number_of_Z DAILY_GOAL_ML) (number_of_Z remainingMl) in
  clamp_number (PrimFloat.div consumed (number_of_Z DAILY_GOAL_ML))
               PrimFloat.zero PrimFloat.one.

(** [progress * 100], the height of the fill in percent. *)
Definition fill_percent (remainingMl : Z) : PrimFloat.float :=
  PrimFloat.mul (progress remainingMl) (number_of_Z 100).

(** The facts about one remaining volume that are checked by evaluation. *)
Definition progress_check (r : Z) : bool :=
  PrimFloat.leb PrimFloat.zero (progress r)
  && PrimFloat.leb (progress r) PrimFloat.one
  && Bool.eqb (PrimFloat.eqb (progress r) PrimFloat.one) (r =? 0)
  && Bool.eqb (PrimFloat.eqb (progress r) PrimFloat.zero) (r =? DAILY_GOAL_ML)
  && PrimFloat.leb PrimFloat.zero (fill_percent r)
  && PrimFloat.leb (fill_percent r) (number_of_Z 100).

(** One more millilitre remaining shows a lower level. *)
Definition progress_step_check (r : Z) : bool :=
  PrimFloat.ltb (progress (r + 1)) (progress r).

End Fill.

(** ** Predicates used in the statements *)

(** What may follow the leading integer: nothing, or text that starts with
    something else than a digit. *)
Definition starts_without_digit (rest : JSString) : Prop :=
  match rest with
  | [] => True
  | c :: _ => Number.isDigit c = false
  end.

(** The bounds of the data model on the remaining volume. *)
Definition in_bounds (s : HydrationState) : Prop :=
  0 <= remainingMl s <= DAILY_GOAL_ML.

(** What a run maintains: the bounds, the flag as a test of the remaining
    volume, and a history that holds a zero exactly when the current volume
    is zero. *)
Definition flag_invariant (sh : HydrationState * list Z) : Prop :=
  in_bounds (fst sh)
  /\ completedToday (fst sh) = (remainingMl (fst sh) =? 0)
  /\ reached_zero (snd sh) = (remainingMl (fst sh) =? 0).

(** * Properties *)

(** ** Helper facts *)

Lemma str_eqb_refl (a : JSString) : str_eqb a a = true.
Proof.
  induction a as [|x a IH]; simpl; [reflexivity|].
  now rewrite N.eqb_refl, IH.
Qed.

Lemma str_eqb_eq (a b : JSString) : str_eqb a b = true <-> a = b.
Proof.
  split.
  - revert b; induction a as [|x a IH]; intros [|y b] H; simpl in H;
      try discriminate; [reflexivity|].
    apply andb_true_iff in H as [Hx Hr].
    apply N.eqb_eq in Hx. apply IH in Hr. now subst.
  - intros ->. apply str_eqb_refl.
Qed.

Lemma str_eqb_neq (a b : JSString) : str_eqb a b = false <-> a <> b.
Proof.
  split.
  - intros H E. apply str_eqb_eq in E. congruence.
  - intros H. destruct (str_eqb a b) eqn:E; [|reflexivity].
    apply str_eqb_eq in E. contradiction.
Qed.

Lemma clamp_goal_bounds (v : Z) :
  0 <= clamp v 0 DAILY_GOAL_ML <= DAILY_GOAL_ML.
Proof. unfold clamp, DAILY_GOAL_ML. lia. Qed.

(** The handler, seen from the state alone. *)
Lemma applyIntake_unfold (s : HydrationState) (rawInput : JSString) :
  applyIntake s rawInput =
  if parseIntSafe rawInput <=? 0 then s
  else
    let nextRemaining :=
      clamp (remainingMl s - parseIntSafe rawInput) 0 DAILY_GOAL_ML in
    {| remainingMl := nextRemaining;
       streak := streak s;
       lastDate := lastDate s;
       completedToday := (nextRemaining =? 0) || completedToday s |}.
Proof.
  unfold applyIntake, handleAddWater; simpl.
  destruct (parseIntSafe rawInput <=? 0); reflexivity.
Qed.

Lemma applyIntake_nonpositive (s : HydrationState) (rawInput : JSString) :
  parseIntSafe rawInput <= 0 -> applyIntake s rawInput = s.
Proof.
  intros H. rewrite applyIntake_unfold.
  apply Z.leb_le in H. now rewrite H.
Qed.

Lemma applyIntake_positive (s : HydrationState) (rawInput : JSString) :
  0 < parseIntSafe rawInput ->
  applyIntake s rawInput =
  {| remainingMl :=
       clamp (remainingMl s - parseIntSafe rawInput) 0 DAILY_GOAL_ML;
     streak := streak s;
     lastDate := lastDate s;
     completedToday :=
       (clamp (remainingMl s - parseIntSafe rawInput) 0 DAILY_GOAL_ML =? 0)
       || completedToday s |}.
Proof.
  intros H. rewrite applyIntake_unfold.
  destruct (parseIntSafe rawInput <=? 0) eqn:E; [|reflexivity].
  apply Z.leb_le in E. lia.
Qed.

Lemma rollover_changed_day (s : HydrationState) (today : JSString) :
  today <> lastDate s ->
  rollover s today =
  {| remainingMl := DAILY_GOAL_ML;
     streak := if completedToday s then streak s + 1 else 0;
     lastDate := today;
     completedToday := false |}.
Proof.
  intros H. unfold rollover, hydrateStateForToday.
  destruct (str_eqb (lastDate s) today) eqn:E; [|reflexivity].
  apply str_eqb_eq in E. congruence.
Qed.

Lemma rollover_unchanged_day (s : HydrationState) (today : JSString) :
  today = lastDate s -> rollover s today = s.
Proof.
  intros ->. unfold rollover, hydrateStateForToday.
  now rewrite str_eqb_refl.
Qed.

(** ** The rollover *)

(** C1. On a new day ([today] differs from [lastDate], whatever the gap),
    the rollover returns exactly the fresh state: the full goal remaining,
    the streak one higher after a completed day and [0] otherwise, [today]
    as the date and the completion flag cleared.  A rollover therefore
    raises a (non-negative) streak by at most one. *)
Theorem rollover_new_day (s : HydrationState) (today : JSString) :
  today <> lastDate s ->
  rollover s today =
    {| remainingMl := DAILY_GOAL_ML;
       streak := if completedToday s then streak s + 1 else 0;
       lastDate := today;
       completedToday := false |}
  /\ (0 <= streak s -> streak (rollover s today) <= streak s + 1).
Proof.
  intros H. rewrite (rollover_changed_day s today H). split; [reflexivity|].
  simpl. destruct (completedToday s); lia.
Qed.

(** The rule of C1 after a gap of several days. *)
Lemma rollover_new_day_after_gap :
  let s := mkState 0 3 (js "2024-01-01") true in
  js "2024-01-05" <> lastDate s
  /\ rollover s (js "2024-01-05") = mkState 2000 4 (js "2024-01-05") false
  /\ streak (rollover s (js "2024-01-05")) <= 3 + 1.
Proof.
  assert (H : js "2024-01-05" <> js "2024-01-01") by (vm_compute; discriminate).
  split; [exact H|].
  destruct (rollover_new_day (mkState 0 3 (js "2024-01-01") true)
              (js "2024-01-05") H) as [E L].
  split; [exact E|].
  apply L. simpl. lia.
Defined.

(** C5. A rollover on the recorded day returns the state as it is. *)
Theorem rollover_same_day (s : HydrationState) :
  rollover s (lastDate s) = s.
Proof. now apply rollover_unchanged_day. Qed.

(** C6. Rolling over twice with one date is the same as rolling over
    once. *)
Theorem rollover_idempotent (s : HydrationState) (d : JSString) :
  rollover (rollover s d) d = rollover s d.
Proof.
  unfold rollover, hydrateStateForToday.
  destruct (str_eqb (lastDate s) d) eqn:E.
  - now rewrite E.
  - simpl. now rewrite str_eqb_refl.
Qed.

(** ** Parsing the input *)

Lemma digit_not_space (c : N) :
  Number.isDigit c = true -> Number.isStrWhiteSpaceChar c = false.
Proof.
  unfold Number.isDigit. intros H.
  apply andb_true_iff in H as [Hlo Hhi].
  apply N.leb_le in Hlo. apply N.leb_le in Hhi.
  unfold Number.isStrWhiteSpaceChar. simpl.
  repeat match goal with
         | |- context [N.eqb c ?k] =>
             replace (N.eqb c k) with false by (symmetry; apply N.eqb_neq; lia)
         end.
  reflexivity.
Qed.

Lemma digit_not_sign (c : N) :
  Number.isDigit c = true ->
  N.eqb c Number.plus = false /\ N.eqb c Number.minus = false.
Proof.
  unfold Number.isDigit, Number.plus, Number.minus. intros H.
  apply andb_true_iff in H as [Hlo Hhi].
  apply N.leb_le in Hlo.
  split; apply N.eqb_neq; lia.
Qed.

Lemma takeDigits_app (ds rest : JSString) :
  forallb Number.isDigit ds = true ->
  starts_without_digit rest ->
  Number.takeDigits (ds ++ rest) = ds.
Proof.
  intros Hds Hrest. induction ds as [|c ds IH]; cbn [app].
  - destruct rest as [|c rest]; [reflexivity|].
    cbn [starts_without_digit] in Hrest.
    cbn [Number.takeDigits]. now rewrite Hrest.
  - cbn [forallb] in Hds. apply andb_true_iff in Hds as [Hc Hds].
    cbn [Number.takeDigits]. rewrite Hc. f_equal. now apply IH.
Qed.

Lemma parseInt10_leading_digits (ds rest : JSString) :
  ds <> [] ->
  forallb Number.isDigit ds = true ->
  starts_without_digit rest ->
  Number.parseInt10 (ds ++ rest) = Some (Number.digitsValue ds).
Proof.
  intros Hne Hds Hrest.
  pose proof (takeDigits_app ds rest Hds Hrest) as Htake.
  destruct ds as [|c ds]; [contradiction|].
  cbn [forallb] in Hds. apply andb_true_iff in Hds as [Hc Hds].
  pose proof (digit_not_space c Hc) as Hsp.
  destruct (digit_not_sign c Hc) as [Hplus Hminus].
  unfold Number.parseInt10.
  change ((c :: ds) ++ rest) with (c :: (ds ++ rest)) in *.
  cbn [Number.trimStart]. rewrite Hsp, Hplus, Hminus. cbn [orb].
  rewrite Htake.
  f_equal. destruct (Number.digitsValue (c :: ds)); reflexivity.
Qed.

Lemma parseIntSafe_of_parse (rawInput : JSString) (n : Z) :
  Number.parseInt10 rawInput = Some n -> parseIntSafe rawInput = n.
Proof. unfold parseIntSafe. now intros ->. Qed.

Lemma parseIntSafe_of_NaN (rawInput : JSString) :
  Number.parseInt10 rawInput = None -> parseIntSafe rawInput = 0.
Proof. unfold parseIntSafe. now intros ->. Qed.

(** ** The intake *)

(** What [clamp] computes between ordered bounds, case by case. *)
Lemma clamp_cases (value min max : Z) :
  min <= max ->
  (value <= min -> clamp value min max = min)
  /\ (min <= value <= max -> clamp value min max = value)
  /\ (max <= value -> clamp value min max = max)
  /\ min <= clamp value min max <= max.
Proof. unfold clamp. lia. Qed.

(** C3. An input that parses to a positive [N] leaves
    [clamp (remainingMl - N) 0 DAILY_GOAL_ML] remaining, that is: [0] when
    [N] is the remaining volume or more, the difference when it lies
    between [0] and the goal, the goal when it exceeds it, and in every
    case a volume between [0] and the goal.  The flag becomes the old flag
    or "nothing remains"; with 100 ml remaining, the input ["500"] leaves
    0 ml and sets the flag. *)
Theorem intake_positive (s : HydrationState) (rawInput : JSString) (N : Z) :
  Number.parseInt10 rawInput = Some N ->
  0 < N ->
  let remaining' := remainingMl (applyIntake s rawInput) in
  remaining' = clamp (remainingMl s - N) 0 DAILY_GOAL_ML
  /\ remaining' = Z.min (Z.max (remainingMl s - N) 0) 2000
  /\ (remainingMl s <= N -> remaining' = 0)
  /\ (N <= remainingMl s <= N + 2000 -> remaining' = remainingMl s - N)
  /\ (N + 2000 <= remainingMl s -> remaining' = 2000)
  /\ 0 <= remaining' <= 2000
  /\ completedToday (applyIntake s rawInput)
     = completedToday s || (remaining' =? 0)
  /\ (remainingMl s = 100 -> rawInput = js "500" ->
      remaining' = 0
      /\ completedToday (applyIntake s rawInput) = true).
Proof.
  intros Hparse Hpos. cbv zeta.
  apply parseIntSafe_of_parse in Hparse.
  rewrite applyIntake_positive by lia.
  rewrite Hparse. cbn [remainingMl completedToday].
  destruct (clamp_cases (remainingMl s - N) 0 DAILY_GOAL_ML)
    as (Hlow & Hmid & Hhigh & Hbounds);
    [unfold DAILY_GOAL_ML; lia|].
  remember (clamp (remainingMl s - N) 0 DAILY_GOAL_ML) as c eqn:Ec.
  unfold DAILY_GOAL_ML in Hlow, Hmid, Hhigh, Hbounds.
  split; [reflexivity|].
  split; [lia|].
  split; [intros H; apply Hlow; lia|].
  split; [intros H; apply Hmid; lia|].
  split; [intros H; apply Hhigh; lia|].
  split; [exact Hbounds|].
  split; [apply orb_comm|].
  intros Hr ->.
  assert (N = 500) as -> by (rewrite <- Hparse; reflexivity).
  rewrite Hlow by lia. split; reflexivity.
Qed.

(** C3 at the overflow example (100 ml remaining, input ["500"]), inside
    the range (2000 ml, input ["1"]) and above it (5000 ml, input ["1"]). *)
Lemma intake_positive_overflow :
  let s := mkState 100 2 (js "2024-01-01") false in
  Number.parseInt10 (js "500") = Some 500
  /\ 0 < 500
  /\ remainingMl (applyIntake s (js "500")) = 0
  /\ completedToday (applyIntake s (js "500")) = true
  /\ remainingMl
       (applyIntake (mkState 2000 0 (js "2024-01-01") false) (js "1")) = 1999
  /\ remainingMl
       (applyIntake (mkState 5000 0 (js "2024-01-01") false) (js "1")) = 2000.
Proof.
  cbv zeta.
  assert (Hp : Number.parseInt10 (js "500") = Some 500) by reflexivity.
  assert (Hn : 0 < 500) by lia.
  assert (Hp1 : Number.parseInt10 (js "1") = Some 1) by reflexivity.
  assert (Hn1 : 0 < 1) by lia.
  destruct (intake_positive (mkState 100 2 (js "2024-01-01") false)
              (js "500") 500 Hp Hn) as (_ & _ & _ & _ & _ & _ & _ & Hex).
  destruct (Hex eq_refl eq_refl) as [H0 Hc].
  destruct (intake_positive (mkState 2000 0 (js "2024-01-01") false)
              (js "1") 1 Hp1 Hn1) as (_ & _ & _ & Hmid & _).
  destruct (intake_positive (mkState 5000 0 (js "2024-01-01") false)
              (js "1") 1 Hp1 Hn1) as (_ & _ & _ & _ & Hhigh & _).
  split; [exact Hp|]. split; [exact Hn|]. split; [exact H0|].
  split; [exact Hc|].
  split; [exact (Hmid ltac:(cbn; lia))|exact (Hhigh ltac:(cbn; lia))].
Defined.

(** C4. An input that does not parse, or parses to zero or less, changes
    nothing: the handler returns without touching a hook, so the state (and
    the component as a whole) is what it was; ["-5"] and ["abc"] are such
    inputs.  The handler is a total function: there is no error to raise. *)
Theorem intake_noop (s : HydrationState) (rawInput : JSString) :
  (Number.parseInt10 rawInput = None
   \/ exists n, Number.parseInt10 rawInput = Some n /\ n <= 0) ->
  applyIntake s rawInput = s
  /\ handleAddWater (mkComponent s rawInput) = mkComponent s rawInput
  /\ applyIntake s (js "-5") = s
  /\ applyIntake s (js "abc") = s.
Proof.
  intros H.
  assert (Hle : parseIntSafe rawInput <= 0).
  { destruct H as [H | [n [H Hn]]].
    - rewrite (parseIntSafe_of_NaN _ H). lia.
    - now rewrite (parseIntSafe_of_parse _ _ H). }
  split; [now apply applyIntake_nonpositive|].
  split.
  - unfold handleAddWater. cbn [inputValue].
    apply Z.leb_le in Hle. now rewrite Hle.
  - split; apply applyIntake_nonpositive; vm_compute; discriminate.
Qed.

(** C4 at an input with no digit at all. *)
Lemma intake_noop_unparsable :
  let s := mkState 750 1 (js "2024-01-01") false in
  Number.parseInt10 (js "abc") = None
  /\ applyIntake s (js "abc") = s
  /\ applyIntake s (js "-5") = s.
Proof.
  assert (Hp : Number.parseInt10 (js "abc") = None) by reflexivity.
  split; [exact Hp|].
  destruct (intake_noop (mkState 750 1 (js "2024-01-01") false) (js "abc")
              (or_introl Hp)) as [H1 [_ [H2 _]]].
  split; assumption.
Defined.

(** C9. The intake leaves [streak] and [lastDate] as they were, for every
    state and every input: it never rolls the day over, and only the
    rollover writes the streak. *)
Theorem intake_frame (s : HydrationState) (rawInput : JSString) :
  streak (applyIntake s rawInput) = streak s
  /\ lastDate (applyIntake s rawInput) = lastDate s.
Proof.
  rewrite applyIntake_unfold.
  destruct (parseIntSafe rawInput <=? 0); split; reflexivity.
Qed.

(** C10. The input is read the way [parseInt] reads it: a run of decimal
    digits followed by other text (["250ml"], ["12abc"]) parses to the
    number the digits spell, so the intake treats it exactly like the digits
    alone, and when that number is positive it is taken off the remaining
    volume. *)
Theorem intake_leading_integer
    (s : HydrationState) (ds rest : JSString) :
  ds <> [] ->
  forallb Number.isDigit ds = true ->
  starts_without_digit rest ->
  Number.parseInt10 (ds ++ rest) = Some (Number.digitsValue ds)
  /\ applyIntake s (ds ++ rest) = applyIntake s ds
  /\ (0 < Number.digitsValue ds ->
      remainingMl (applyIntake s (ds ++ rest))
        = clamp (remainingMl s - Number.digitsValue ds) 0 DAILY_GOAL_ML
      /\ completedToday (applyIntake s (ds ++ rest))
         = completedToday s
           || (remainingMl (applyIntake s (ds ++ rest)) =? 0))
  /\ parseIntSafe (js "250ml") = 250
  /\ parseIntSafe (js "12abc") = 12.
Proof.
  intros Hne Hds Hrest.
  pose proof (parseInt10_leading_digits ds rest Hne Hds Hrest) as Hfull.
  assert (Halone : Number.parseInt10 ds = Some (Number.digitsValue ds)).
  { rewrite <- (app_nil_r ds) at 1.
    now apply parseInt10_leading_digits. }
  apply parseIntSafe_of_parse in Hfull, Halone.
  split; [now apply parseInt10_leading_digits|].
  split; [rewrite !applyIntake_unfold; now rewrite Hfull, Halone|].
  split; [|split; reflexivity].
  intros Hpos. rewrite applyIntake_positive by lia.
  rewrite Hfull. cbn [remainingMl completedToday].
  split; [reflexivity|apply orb_comm].
Qed.

(** C10 at ["250ml"], with 2000 ml remaining. *)
Lemma intake_leading_integer_250ml :
  let s := mkState 2000 0 (js "2024-01-01") false in
  Number.parseInt10 (js "250ml") = Some 250
  /\ applyIntake s (js "250ml") = applyIntake s (js "250")
  /\ remainingMl (applyIntake s (js "250ml")) = 1750.
Proof.
  assert (Hne : js "250" <> []) by (vm_compute; discriminate).
  assert (Hds : forallb Number.isDigit (js "250") = true) by reflexivity.
  assert (Hrest : starts_without_digit (js "ml")) by reflexivity.
  destruct (intake_leading_integer (mkState 2000 0 (js "2024-01-01") false)
              (js "250") (js "ml") Hne Hds Hrest) as [Hp [Heq [Hpos _]]].
  split; [exact Hp|]. split; [exact Heq|].
  assert (H0 : 0 < Number.digitsValue (js "250")) by (vm_compute; reflexivity).
  destruct (Hpos H0) as [Hr _]. exact Hr.
Defined.

(** ** Invariants of the runs *)

Lemma initial_in_bounds (today : JSString) :
  in_bounds (buildInitialState today).
Proof. unfold in_bounds, buildInitialState, DAILY_GOAL_ML; simpl; lia. Qed.

Lemma rollover_in_bounds (s : HydrationState) (today : JSString) :
  in_bounds s -> in_bounds (rollover s today).
Proof.
  intros H. unfold rollover, hydrateStateForToday.
  destruct (str_eqb (lastDate s) today); [exact H|].
  unfold in_bounds, DAILY_GOAL_ML; simpl; lia.
Qed.

Lemma applyIntake_in_bounds (s : HydrationState) (rawInput : JSString) :
  in_bounds s -> in_bounds (applyIntake s rawInput).
Proof.
  intros H. rewrite applyIntake_unfold.
  destruct (parseIntSafe rawInput <=? 0); [exact H|].
  unfold in_bounds; cbn [remainingMl]. apply clamp_goal_bounds.
Qed.

Lemma step_in_bounds (s : HydrationState) (e : Event) :
  in_bounds s -> in_bounds (step s e).
Proof.
  destruct e; simpl; [apply rollover_in_bounds|apply applyIntake_in_bounds].
Qed.

Lemma run_in_bounds (es : list Event) (s : HydrationState) :
  in_bounds s -> in_bounds (run s es).
Proof.
  revert s. induction es as [|e es IH]; intros s H; simpl; [exact H|].
  apply IH. now apply step_in_bounds.
Qed.

(** Within bounds the intake never raises the remaining volume. *)
Lemma applyIntake_decreases (s : HydrationState) (rawInput : JSString) :
  in_bounds s -> remainingMl (applyIntake s rawInput) <= remainingMl s.
Proof.
  unfold in_bounds. intros H. rewrite applyIntake_unfold.
  destruct (parseIntSafe rawInput <=? 0) eqn:E; [lia|].
  apply Z.leb_gt in E. cbn [remainingMl].
  unfold clamp, DAILY_GOAL_ML in *. lia.
Qed.

Lemma applyIntake_keeps_completed (s : HydrationState) (rawInput : JSString) :
  completedToday s = true -> completedToday (applyIntake s rawInput) = true.
Proof.
  intros H. rewrite applyIntake_unfold.
  destruct (parseIntSafe rawInput <=? 0); [exact H|].
  cbn [completedToday]. rewrite H. apply orb_true_r.
Qed.

Lemma flag_invariant_initial (today : JSString) :
  flag_invariant
    (buildInitialState today, [remainingMl (buildInitialState today)]).
Proof.
  unfold flag_invariant, in_bounds; cbn; unfold DAILY_GOAL_ML.
  repeat split; reflexivity || lia.
Qed.

Lemma flag_invariant_fresh (today : JSString) (k : Z) :
  flag_invariant (mkState DAILY_GOAL_ML k today false, [DAILY_GOAL_ML]).
Proof.
  unfold flag_invariant, in_bounds; cbn; unfold DAILY_GOAL_ML.
  repeat split; reflexivity || lia.
Qed.

Lemma reached_zero_one (r : Z) : reached_zero [r] = (r =? 0).
Proof.
  unfold reached_zero; cbn [existsb].
  rewrite orb_false_r. apply Z.eqb_sym.
Qed.

Lemma reached_zero_cons (r : Z) (seen : list Z) :
  reached_zero (r :: seen) = (r =? 0) || reached_zero seen.
Proof. unfold reached_zero; cbn [existsb]. now rewrite (Z.eqb_sym 0). Qed.

Lemma flag_invariant_step (b : bool) (sh : HydrationState * list Z)
    (e : Event) :
  flag_invariant sh -> flag_invariant (step_history b sh e).
Proof.
  destruct sh as [s seen]. intros (Hb & Hc & Hz).
  cbn [fst snd] in *. destruct e as [today | rawInput]; cbn [step_history step].
  - unfold rollover, hydrateStateForToday.
    destruct (str_eqb (lastDate s) today) eqn:E; cbn [andb].
    + destruct (negb b); unfold flag_invariant; cbn [fst snd].
      * auto.
      * rewrite reached_zero_one. auto.
    + apply flag_invariant_fresh.
  - unfold flag_invariant; cbn [fst snd].
    split; [now apply applyIntake_in_bounds|].
    rewrite reached_zero_cons, Hz.
    rewrite applyIntake_unfold.
    destruct (parseIntSafe rawInput <=? 0) eqn:E.
    + split; [exact Hc|apply orb_diag].
    + apply Z.leb_gt in E. cbn [remainingMl completedToday].
      rewrite Hc.
      assert (Hmono : (remainingMl s =? 0) = true ->
                      (clamp (remainingMl s - parseIntSafe rawInput) 0
                         DAILY_GOAL_ML =? 0) = true).
      { intros H0. apply Z.eqb_eq in H0. apply Z.eqb_eq.
        unfold clamp, DAILY_GOAL_ML. lia. }
      destruct (remainingMl s =? 0).
      * rewrite (Hmono eq_refl). split; reflexivity.
      * rewrite !orb_false_r. split; reflexivity.
Qed.

Lemma run_history_invariant (b : bool) (es : list Event)
    (sh : HydrationState * list Z) :
  flag_invariant sh ->
  flag_invariant (fold_left (step_history b) es sh)
  /\ fst (fold_left (step_history b) es sh) = run (fst sh) es.
Proof.
  revert sh. induction es as [|e es IH]; intros sh H; cbn [fold_left run].
  - split; [exact H|reflexivity].
  - destruct (IH _ (flag_invariant_step b sh e H)) as [Hi Hr].
    split; [exact Hi|]. rewrite Hr. f_equal.
    destruct sh as [s seen]. destruct e; cbn [step_history fst].
    + destruct (str_eqb (lastDate s) today && negb b); reflexivity.
    + reflexivity.
Qed.

(** C2. From the initial state, whatever loads and intakes follow, the
    remaining volume stays between [0] and the daily goal. *)
Theorem bounds_invariant (today0 : JSString) (es : list Event) :
  0 <= remainingMl (run (buildInitialState today0) es) <= DAILY_GOAL_ML.
Proof. apply run_in_bounds, initial_in_bounds. Qed.

(** C7. In every state a run reaches from the initial state, the flag is
    set exactly when the remaining volume has been [0] at some point since
    the most recent rollover (under either reading of a load on the
    unchanged day), which is exactly when it is [0] now, because an intake
    never raises it; and an intake never clears a flag that is set, in any
    state, so only a rollover does. *)
Theorem completion_flag_invariant
    (same_day_counts : bool) (today0 : JSString) (es : list Event) :
  let s := run (buildInitialState today0) es in
  let seen := snd (run_history same_day_counts today0 es) in
  fst (run_history same_day_counts today0 es) = s
  /\ (completedToday s = true <-> reached_zero seen = true)
  /\ (completedToday s = true <-> remainingMl s = 0)
  /\ (forall rawInput, remainingMl (applyIntake s rawInput) <= remainingMl s)
  /\ (forall (s' : HydrationState) rawInput,
        completedToday s' = true ->
        completedToday (applyIntake s' rawInput) = true).
Proof.
  cbv zeta. unfold run_history.
  destruct (run_history_invariant same_day_counts es _
              (flag_invariant_initial today0)) as [(Hb & Hc & Hz) Hr].
  cbn [fst] in Hr. rewrite Hr in Hb, Hc, Hz.
  split; [exact Hr|].
  split; [rewrite Hc, Hz; reflexivity|].
  split; [rewrite Hc; apply Z.eqb_eq|].
  split; [intros rawInput; now apply applyIntake_decreases|].
  intros s' rawInput. apply applyIntake_keeps_completed.
Qed.

(** C7 on a day that is completed in two intakes, reloaded, drunk on, and
    then rolled over. *)
Lemma completion_flag_invariant_run :
  let es := [ AddWater (js "1500"); AddWater (js "700");
              Load (js "2024-01-01"); AddWater (js "100") ] in
  let s := run (buildInitialState (js "2024-01-01")) es in
  completedToday s = true
  /\ remainingMl s = 0
  /\ reached_zero (snd (run_history false (js "2024-01-01") es)) = true
  /\ completedToday (applyIntake s (js "300")) = true
  /\ completedToday (rollover s (js "2024-01-02")) = false.
Proof.
  cbv zeta.
  destruct (completion_flag_invariant false (js "2024-01-01")
              [ AddWater (js "1500"); AddWater (js "700");
                Load (js "2024-01-01"); AddWater (js "100") ])
    as (_ & Hseen & Hzero & _ & Hkeep).
  assert (H0 : remainingMl
                 (run (buildInitialState (js "2024-01-01"))
                    [ AddWater (js "1500"); AddWater (js "700");
                      Load (js "2024-01-01"); AddWater (js "100") ]) = 0)
    by reflexivity.
  pose proof (proj2 Hzero H0) as Hc.
  split; [exact Hc|]. split; [exact H0|].
  split; [exact (proj1 Hseen Hc)|].
  split; [exact (Hkeep _ (js "300") Hc)|reflexivity].
Defined.

(** ** Startup *)

Import Startup.

Lemma lookup_state_fields (r st d c : JSValue) :
  let props := [ (k_remainingMl, r); (k_streak, st);
                 (k_lastDate, d); (k_completedToday, c) ] in
  lookup k_remainingMl props = r /\ lookup k_streak props = st
  /\ lookup k_lastDate props = d /\ lookup k_completedToday props = c.
Proof. repeat split. Qed.

Lemma setStateFromStorage_object (s : HydrationState) :
  setStateFromStorage (object_of_state s) = Normal (hooks_of_state s).
Proof. reflexivity. Qed.

(** On a well-shaped object the untyped rollover is the typed one. *)
Lemma hydrateStateForToday_js_object (today : JSString) (s : HydrationState) :
  hydrateStateForToday_js today (object_of_state s)
  = Normal (object_of_state (hydrateStateForToday today s)).
Proof.
  unfold hydrateStateForToday_js, hydrateStateForToday, object_of_state.
  cbn [get bind].
  destruct (lookup_state_fields (JNumber (remainingMl s)) (JNumber (streak s))
              (JString (lastDate s)) (JBool (completedToday s)))
    as (_ & Hst & Hd & Hc).
  cbv zeta in Hst, Hd, Hc. rewrite Hd, Hc. cbn [strict_eq_string ToBoolean].
  destruct (str_eqb (lastDate s) today); [reflexivity|].
  destruct (completedToday s); cbn [bind]; [rewrite Hst|]; reflexivity.
Qed.


Lemma loadState_fallback (today : JSString) :
  try_catch Throw
    (let fallback := object_of_state (buildInitialState today) in
     setStateFromStorage fallback)
  = Normal (hooks_of_state (buildInitialState today)).
Proof. reflexivity. Qed.

Lemma loadState_initial (today : JSString) (handler : Completion Hooks) :
  try_catch
    (hydrated <- hydrateStateForToday_js today
                   (object_of_state (buildInitialState today)) ;;
     setStateFromStorage hydrated)
    handler
  = Normal (hooks_of_state (buildInitialState today)).
Proof.
  rewrite hydrateStateForToday_js_object. cbn [bind].
  rewrite setStateFromStorage_object. cbn [try_catch]. f_equal. f_equal.
  apply (rollover_unchanged_day (buildInitialState today) today eq_refl).
Qed.

(** Whatever the property reads of a parsed value give, reading the four
    fields of what the untyped rollover returns does not throw. *)
Lemma hydrate_then_set_total (today : JSString) (parsed hydrated : Parsed) :
  hydrateStateForToday_js today parsed = Normal hydrated ->
  exists h, setStateFromStorage hydrated = Normal h.
Proof.
  unfold hydrateStateForToday_js.
  destruct (get parsed k_lastDate) as [last|] eqn:Hget; cbn [bind];
    [|discriminate].
  destruct (strict_eq_string last today).
  - intros [= <-].
    assert (Hall : forall key, exists v, get parsed key = Normal v).
    { intros key. destruct parsed as [[| | | | |]| |];
        try discriminate Hget; eexists; reflexivity. }
    unfold setStateFromStorage.
    destruct (Hall k_remainingMl) as [v1 ->].
    destruct (Hall k_streak) as [v2 ->].
    destruct (Hall k_lastDate) as [v3 ->].
    destruct (Hall k_completedToday) as [v4 ->].
    eexists; reflexivity.
  - destruct (get parsed k_completedToday) as [completed|]; cbn [bind];
      [|discriminate].
    destruct (ToBoolean completed); cbn [bind].
    + destruct (get parsed k_streak) as [st|]; cbn [bind]; [|discriminate].
      intros [= <-]. eexists; reflexivity.
    + intros [= <-]. eexists; reflexivity.
Qed.


Lemma get_all_or_none (p : Parsed) (key key' : JSString) (v : JSValue) :
  get p key = Normal v -> exists v', get p key' = Normal v'.
Proof.
  destruct p as [[| | | | |]| |]; cbn [get]; intros H;
    try discriminate H; eexists; reflexivity.
Qed.

Lemma strict_eq_string_true (v : JSValue) (today : JSString) :
  strict_eq_string v today = true -> v = JString today.
Proof.
  destruct v; cbn [strict_eq_string]; try discriminate.
  intros H. apply str_eqb_eq in H. now subst.
Qed.

(** What the hooks receive from a parsed value, when nothing throws. *)
Lemma hydrate_then_set (today : JSString) (p : Parsed) (h : Hooks) :
  (hydrated <- hydrateStateForToday_js today p ;; setStateFromStorage hydrated)
  = Normal h ->
  exists last completed,
    get p k_lastDate = Normal last
    /\ get p k_completedToday = Normal completed
    /\ (strict_eq_string last today = true ->
        last = JString today /\ setStateFromStorage p = Normal h)
    /\ (strict_eq_string last today = false ->
        exists st,
          h = mkHooks (JNumber DAILY_GOAL_ML) st (JString today) (JBool false)
          /\ (ToBoolean completed = false -> st = JNumber 0)).
Proof.
  unfold hydrateStateForToday_js.
  destruct (get p k_lastDate) as [last|] eqn:Hlast; cbn [bind];
    [|discriminate].
  destruct (get_all_or_none p k_lastDate k_completedToday last Hlast)
    as [completed Hcompleted].
  destruct (get_all_or_none p k_lastDate k_streak last Hlast) as [st Hst].
  intros H. exists last, completed. split; [reflexivity|].
  split; [exact Hcompleted|].
  destruct (strict_eq_string last today) eqn:E.
  - split; [|discriminate]. intros _.
    split; [now apply strict_eq_string_true|exact H].
  - split; [discriminate|]. intros _.
    rewrite Hcompleted in H. cbn [bind] in H.
    destruct (ToBoolean completed).
    + rewrite Hst in H. cbn [bind] in H. injection H as <-.
      eexists. split; [reflexivity|discriminate].
    + cbn [bind] in H. injection H as <-.
      eexists. split; reflexivity.
Qed.

Lemma loadState_stale
    (JSON_parse : JSString -> Completion Parsed)
    (today : JSString) (c : N) (text : JSString) (p : Parsed)
    (last completed : JSValue) :
  JSON_parse (c :: text) = Normal p ->
  get p k_lastDate = Normal last ->
  strict_eq_string last today = false ->
  get p k_completedToday = Normal completed ->
  exists st,
    loadState JSON_parse today (Resolved (Some (c :: text)))
    = Normal (mkHooks (JNumber DAILY_GOAL_ML) st (JString today) (JBool false))
    /\ (ToBoolean completed = false -> st = JNumber 0).
Proof.
  intros Hparse Hlast Hstale Hcompleted.
  unfold loadState. cbn [getItem_completion bind]. rewrite Hparse. cbn [bind].
  destruct (hydrated <- hydrateStateForToday_js today p ;;
            setStateFromStorage hydrated) as [h|] eqn:Hbody.
  - destruct (hydrate_then_set today p h Hbody)
      as (last' & completed' & Hlast' & Hcompleted' & _ & Hnew).
    rewrite Hlast in Hlast'. injection Hlast' as <-.
    rewrite Hcompleted in Hcompleted'. injection Hcompleted' as <-.
    destruct (Hnew Hstale) as (st & -> & Hst).
    exists st. split; [reflexivity|exact Hst].
  - exfalso. unfold hydrateStateForToday_js in Hbody.
    rewrite Hlast in Hbody. cbn [bind] in Hbody.
    rewrite Hstale, Hcompleted in Hbody. cbn [bind] in Hbody.
    destruct (get_all_or_none p k_lastDate k_streak _ Hlast) as [v Hv].
    rewrite Hv in Hbody.
    destruct (ToBoolean completed); cbn [bind] in Hbody; discriminate Hbody.
Qed.





(** ** Worked examples *)

(** A completed day raises the streak. *)
Example streak_increment_rule :
  rollover (mkState 0 3 (js "2024-01-01") true) (js "2024-01-02")
  = mkState 2000 4 (js "2024-01-02") false.
Proof. reflexivity. Qed.

(** An uncompleted day resets it. *)
Example streak_reset_rule :
  streak (rollover (mkState 500 5 (js "2024-01-01") false) (js "2024-01-02"))
  = 0.
Proof. reflexivity. Qed.

Example parseInt_examples :
  Number.parseInt10 (js "250ml") = Some 250
  /\ Number.parseInt10 (js "  +42") = Some 42
  /\ Number.parseInt10 (js "-5") = Some (-5)
  /\ Number.parseInt10 (js "12.9") = Some 12
  /\ Number.parseInt10 (js "abc") = None
  /\ Number.parseInt10 (js "") = None
  /\ Number.parseInt10 (js "- 5") = None.
Proof. repeat split. Qed.

(** An accepted intake empties the input box; a refused one leaves it. *)
Example handleAddWater_input_box :
  inputValue (handleAddWater
                (mkComponent (buildInitialState (js "2024-01-01")) (js "300")))
  = []
  /\ inputValue (handleAddWater
                   (mkComponent (buildInitialState (js "2024-01-01")) (js "x")))
     = js "x".
Proof. split; reflexivity. Qed.

(** * Further properties of the code *)

(** ** The date key *)

Lemma all_from_spec (count : nat) (P : Z -> bool) (z0 : Z) :
  all_from count z0 P = true ->
  forall z, z0 <= z < z0 + Z.of_nat count -> P z = true.
Proof.
  revert z0. induction count as [|count IH]; intros z0 H z Hz; [lia|].
  cbn [all_from] in H. apply andb_true_iff in H as [Hhead Htail].
  destruct (Z.eq_dec z z0) as [->|Hne]; [exact Hhead|].
  apply (IH (z0 + 1) Htail). lia.
Qed.

Lemma all_upto_spec (n : Z) (P : Z -> bool) :
  all_upto n P = true ->
  forall z, 0 <= z < n -> P z = true.
Proof.
  unfold all_upto. intros H z Hz.
  apply (all_from_spec _ P 0 H). lia.
Qed.

Lemma uint_codes_inj (a b : Decimal.uint) :
  uint_codes a = uint_codes b -> a = b.
Proof.
  revert b. induction a; intros b H; destruct b; cbn [uint_codes] in H;
    try discriminate H; try reflexivity;
    injection H as H; f_equal; now apply IHa.
Qed.

Lemma uint_codes_no_minus (a b : Decimal.uint) :
  uint_codes a <> Number.minus :: uint_codes b.
Proof. destruct a; cbn [uint_codes]; discriminate. Qed.

Lemma Number_toString_inj (a b : Z) :
  Number_toString a = Number_toString b -> a = b.
Proof.
  unfold Number_toString. intros H.
  rewrite <- (DecimalZ.of_to a), <- (DecimalZ.of_to b). f_equal.
  destruct (Z.to_int a) as [da|da], (Z.to_int b) as [db|db].
  - f_equal. now apply uint_codes_inj.
  - now apply uint_codes_no_minus in H.
  - symmetry in H. now apply uint_codes_no_minus in H.
  - injection H as H. f_equal. now apply uint_codes_inj.
Qed.

Lemma two_digit_checked : all_upto 100 two_digit_check = true.
Proof. vm_compute. reflexivity. Qed.

Lemma four_digit_checked : all_upto 9000 four_digit_check = true.
Proof. vm_compute. reflexivity. Qed.

Lemma spells_spec (width : nat) (n : Z) (text : JSString) :
  spells width n text = true ->
  List.length text = width
  /\ forallb Number.isDigit text = true
  /\ Number.digitsValue text = n.
Proof.
  unfold spells. intros H.
  apply andb_true_iff in H as [H Hv]. apply andb_true_iff in H as [Hl Hd].
  apply Nat.eqb_eq in Hl. apply Z.eqb_eq in Hv. auto.
Qed.

Lemma two_digit_field (n : Z) :
  0 <= n <= 99 ->
  exists a b,
    padStart (Number_toString n) 2 (js "0") = [a; b]
    /\ Number.isDigit a = true /\ Number.isDigit b = true
    /\ Number.digitsValue [a; b] = n.
Proof.
  intros Hn.
  assert (H : two_digit_check n = true)
    by (apply (all_upto_spec 100 _ two_digit_checked); lia).
  apply spells_spec in H as (Hl & Hd & Hv).
  destruct (padStart (Number_toString n) 2 (js "0")) as [|a [|b [|c l]]];
    try discriminate Hl.
  exists a, b. cbn [forallb] in Hd.
  apply andb_true_iff in Hd as [Ha Hd]. apply andb_true_iff in Hd as [Hb _].
  auto.
Qed.

Lemma four_digit_year (y : Z) :
  1000 <= y <= 9999 ->
  exists a b c d,
    Number_toString y = [a; b; c; d]
    /\ forallb Number.isDigit [a; b; c; d] = true
    /\ Number.digitsValue [a; b; c; d] = y.
Proof.
  intros Hy.
  assert (H : four_digit_check (y - 1000) = true)
    by (apply (all_upto_spec 9000 _ four_digit_checked); lia).
  unfold four_digit_check in H.
  replace (1000 + (y - 1000)) with y in H by lia.
  apply spells_spec in H as (Hl & Hd & Hv).
  destruct (Number_toString y) as [|a [|b [|c [|d [|e l]]]]];
    try discriminate Hl.
  exists a, b, c, d. auto.
Qed.

Lemma app_inj_same_length {A : Type} (l1 l2 s1 s2 : list A) :
  l1 ++ s1 = l2 ++ s2 ->
  List.length s1 = List.length s2 ->
  l1 = l2 /\ s1 = s2.
Proof.
  revert l2. induction l1 as [|x l1 IH]; intros [|y l2] H Hlen; cbn [app] in H.
  - auto.
  - apply (f_equal (@List.length A)) in H. cbn [List.length] in H.
    rewrite length_app in H. lia.
  - apply (f_equal (@List.length A)) in H. cbn [List.length] in H.
    rewrite length_app in H. lia.
  - injection H as -> H. destruct (IH l2 H Hlen) as [-> ->]. auto.
Qed.

Lemma getDateKey_fields (d : JSDate) :
  calendar_date d ->
  exists a b c e,
    getDateKey d
    = Number_toString (getFullYear d) ++ [hyphen; a; b; hyphen; c; e]
    /\ forallb Number.isDigit [a; b; c; e] = true
    /\ Number.digitsValue [a; b] = getMonth d + 1
    /\ Number.digitsValue [c; e] = getDate d.
Proof.
  intros [Hm Hd].
  destruct (two_digit_field (getMonth d + 1)) as (a & b & Em & Ha & Hb & Vm);
    [lia|].
  destruct (two_digit_field (getDate d)) as (c & e & Ed & Hc & He & Vd);
    [lia|].
  exists a, b, c, e. unfold getDateKey. cbv zeta. rewrite Em, Ed.
  split; [reflexivity|].
  split; [cbn [forallb]; now rewrite Ha, Hb, Hc, He|].
  auto.
Qed.

Lemma getDateKey_inj (d1 d2 : JSDate) :
  calendar_date d1 -> calendar_date d2 ->
  getDateKey d1 = getDateKey d2 -> d1 = d2.
Proof.
  intros H1 H2 Hkey.
  destruct (getDateKey_fields d1 H1) as (a1 & b1 & c1 & e1 & K1 & _ & M1 & D1).
  destruct (getDateKey_fields d2 H2) as (a2 & b2 & c2 & e2 & K2 & _ & M2 & D2).
  rewrite K1, K2 in Hkey.
  apply app_inj_same_length in Hkey as [Hy Hrest]; [|reflexivity].
  apply Number_toString_inj in Hy.
  injection Hrest as -> -> -> ->.
  destruct d1 as [y1 m1 dd1], d2 as [y2 m2 dd2]; cbn in *.
  f_equal; lia.
Qed.

Lemma date_eqb_eq (a b : JSDate) : date_eqb a b = true <-> a = b.
Proof.
  unfold date_eqb. split.
  - intros H. apply andb_true_iff in H as [H Hd].
    apply andb_true_iff in H as [Hy Hm].
    apply Z.eqb_eq in Hy, Hm, Hd.
    destruct a, b; cbn in *. congruence.
  - intros ->. now rewrite !Z.eqb_refl.
Qed.

(** X1. Two calendar dates with the same key are the same date: the key
    tells days apart, so a day change is never missed. *)
Theorem getDateKey_injective (d1 d2 : JSDate) :
  calendar_date d1 -> calendar_date d2 ->
  getDateKey d1 = getDateKey d2 -> d1 = d2.
Proof. apply getDateKey_inj. Qed.

(** X1 on one date read twice. *)
Lemma getDateKey_injective_same_day :
  calendar_date (mkDate 2024 1 29)
  /\ getDateKey (mkDate 2024 1 29) = js "2024-02-29"
  /\ mkDate 2024 1 29 = mkDate 2024 1 29.
Proof.
  assert (H : calendar_date (mkDate 2024 1 29))
    by (unfold calendar_date; simpl; lia).
  split; [exact H|]. split; [reflexivity|].
  exact (getDateKey_injective _ _ H H eq_refl).
Defined.

(** X2. For a year of four digits the key has the form YYYY-MM-DD: ten code
    units, hyphens at positions 4 and 7, digits elsewhere, and the three
    groups spell the year, the month counted from 1 and the day. *)
Theorem getDateKey_format (d : JSDate) :
  calendar_date d ->
  1000 <= getFullYear d <= 9999 ->
  let key := getDateKey d in
  List.length key = 10%nat
  /\ nth_error key 4 = Some hyphen
  /\ nth_error key 7 = Some hyphen
  /\ forallb Number.isDigit
       (firstn 4 key ++ firstn 2 (skipn 5 key) ++ skipn 8 key) = true
  /\ Number.digitsValue (firstn 4 key) = getFullYear d
  /\ Number.digitsValue (firstn 2 (skipn 5 key)) = getMonth d + 1
  /\ Number.digitsValue (skipn 8 key) = getDate d.
Proof.
  intros Hd Hy. cbv zeta.
  destruct (getDateKey_fields d Hd) as (a & b & c & e & K & Hdig & Vm & Vd).
  destruct (four_digit_year _ Hy) as (y1 & y2 & y3 & y4 & Ey & Hyd & Vy).
  rewrite K, Ey. cbn [app List.length nth_error firstn skipn].
  repeat split; try assumption.
  cbn [forallb] in *.
  apply andb_true_iff in Hyd as [H1 Hyd]. apply andb_true_iff in Hyd as [H2 Hyd].
  apply andb_true_iff in Hyd as [H3 Hyd]. apply andb_true_iff in Hyd as [H4 _].
  now rewrite H1, H2, H3, H4.
Qed.

(** X2 on 5 January 2024. *)
Lemma getDateKey_format_january :
  calendar_date (mkDate 2024 0 5)
  /\ getDateKey (mkDate 2024 0 5) = js "2024-01-05"
  /\ List.length (getDateKey (mkDate 2024 0 5)) = 10%nat
  /\ Number.digitsValue (firstn 2 (skipn 5 (getDateKey (mkDate 2024 0 5)))) = 1.
Proof.
  assert (H : calendar_date (mkDate 2024 0 5))
    by (unfold calendar_date; simpl; lia).
  assert (Hy : 1000 <= getFullYear (mkDate 2024 0 5) <= 9999) by (simpl; lia).
  split; [exact H|]. split; [reflexivity|].
  destruct (getDateKey_format (mkDate 2024 0 5) H Hy)
    as (Hl & _ & _ & _ & _ & Hm & _).
  split; [exact Hl|exact Hm].
Defined.

(** X3. With [lastDate] written by [getDateKey], the rollover leaves the
    state alone exactly when the calendar date is unchanged; on any other
    date, later or earlier, it starts a fresh day. *)
Theorem rollover_on_date_change (s : HydrationState) (d0 d1 : JSDate) :
  calendar_date d0 -> calendar_date d1 ->
  lastDate s = getDateKey d0 ->
  hydrateStateForToday (getDateKey d1) s
  = if date_eqb d0 d1 then s
    else {| remainingMl := DAILY_GOAL_ML;
            streak := if completedToday s then streak s + 1 else 0;
            lastDate := getDateKey d1;
            completedToday := false |}.
Proof.
  intros H0 H1 Hlast.
  destruct (date_eqb d0 d1) eqn:E.
  - apply date_eqb_eq in E. subst d1.
    apply (rollover_unchanged_day s (getDateKey d0)). now symmetry.
  - apply (rollover_changed_day s (getDateKey d1)).
    rewrite Hlast. intros Hkey.
    apply getDateKey_inj in Hkey; [|assumption|assumption].
    subst d1. rewrite (proj2 (date_eqb_eq d0 d0) eq_refl) in E. discriminate.
Qed.

(** X3 with the clock set back by a day. *)
Lemma rollover_on_date_change_backwards :
  let s := mkState 0 3 (getDateKey (mkDate 2024 2 1)) true in
  calendar_date (mkDate 2024 2 1)
  /\ calendar_date (mkDate 2024 1 29)
  /\ hydrateStateForToday (getDateKey (mkDate 2024 1 29)) s
     = mkState 2000 4 (js "2024-02-29") false.
Proof.
  cbv zeta.
  assert (H0 : calendar_date (mkDate 2024 2 1))
    by (unfold calendar_date; simpl; lia).
  assert (H1 : calendar_date (mkDate 2024 1 29))
    by (unfold calendar_date; simpl; lia).
  split; [exact H0|]. split; [exact H1|].
  rewrite (rollover_on_date_change
             (mkState 0 3 (getDateKey (mkDate 2024 2 1)) true)
             (mkDate 2024 2 1) (mkDate 2024 1 29) H0 H1 eq_refl).
  reflexivity.
Defined.

(** ** The intake handler over several presses *)

Lemma parseIntSafe_empty : parseIntSafe [] = 0.
Proof. reflexivity. Qed.

(** X4. Pressing the button twice counts the input once: after an accepted
    intake the input box is empty, and an empty or refused input changes
    nothing. *)
Theorem handleAddWater_idempotent (c : Component) :
  handleAddWater (handleAddWater c) = handleAddWater c.
Proof.
  unfold handleAddWater at 2 3.
  destruct (parseIntSafe (inputValue c) <=? 0) eqn:E.
  - unfold handleAddWater. now rewrite E.
  - unfold handleAddWater. cbn [inputValue].
    rewrite parseIntSafe_empty. reflexivity.
Qed.

Ltac intake_cases :=
  repeat match goal with
         | |- context [Z.eqb ?a ?b] => destruct (Z.eqb_spec a b)
         | |- context [completedToday ?s] => destruct (completedToday s)
         end;
  cbn [orb]; try reflexivity; try lia.

(** X5. Within the bounds, two accepted intakes in a row amount to one
    intake of their sum. *)
Theorem intake_additive (s : HydrationState) (x y z : JSString) :
  in_bounds s ->
  0 < parseIntSafe x ->
  0 < parseIntSafe y ->
  parseIntSafe z = parseIntSafe x + parseIntSafe y ->
  applyIntake (applyIntake s x) y = applyIntake s z.
Proof.
  intros Hb Hx Hy Hz.
  rewrite (applyIntake_positive _ y Hy), (applyIntake_positive s x Hx).
  rewrite (applyIntake_positive s z) by lia.
  rewrite Hz. cbn [remainingMl streak lastDate completedToday].
  unfold in_bounds, DAILY_GOAL_ML in Hb.
  assert (Hr : clamp (clamp (remainingMl s - parseIntSafe x) 0 DAILY_GOAL_ML
                      - parseIntSafe y) 0 DAILY_GOAL_ML
               = clamp (remainingMl s - (parseIntSafe x + parseIntSafe y)) 0
                   DAILY_GOAL_ML)
    by (unfold clamp, DAILY_GOAL_ML; lia).
  rewrite Hr. f_equal.
  assert (Hz0 : clamp (remainingMl s - parseIntSafe x) 0 DAILY_GOAL_ML = 0 ->
                clamp (remainingMl s - (parseIntSafe x + parseIntSafe y)) 0
                  DAILY_GOAL_ML = 0)
    by (unfold clamp, DAILY_GOAL_ML; lia).
  intake_cases.
Qed.

(** X5 with 300 ml and then 450 ml. *)
Lemma intake_additive_750 :
  let s := buildInitialState (js "2024-01-01") in
  in_bounds s
  /\ applyIntake (applyIntake s (js "300")) (js "450") = applyIntake s (js "750")
  /\ remainingMl (applyIntake s (js "750")) = 1250.
Proof.
  cbv zeta.
  assert (Hb : in_bounds (buildInitialState (js "2024-01-01")))
    by (unfold in_bounds; cbn; unfold DAILY_GOAL_ML; lia).
  split; [exact Hb|]. split; [|reflexivity].
  apply (intake_additive _ (js "300") (js "450") (js "750") Hb);
    vm_compute; reflexivity.
Defined.

(** X6. Within the bounds, the order of two inputs does not matter,
    whatever the inputs are. *)
Theorem intake_commutes (s : HydrationState) (x y : JSString) :
  in_bounds s ->
  applyIntake (applyIntake s x) y = applyIntake (applyIntake s y) x.
Proof.
  intros Hb. rewrite !applyIntake_unfold.
  unfold in_bounds, DAILY_GOAL_ML in Hb.
  destruct (parseIntSafe x <=? 0) eqn:Ex, (parseIntSafe y <=? 0) eqn:Ey;
    try reflexivity.
  apply Z.leb_gt in Ex, Ey.
  cbv zeta. cbn [remainingMl streak lastDate completedToday].
  set (a := parseIntSafe x) in *. set (b := parseIntSafe y) in *.
  assert (Hr : clamp (clamp (remainingMl s - a) 0 DAILY_GOAL_ML - b) 0
                 DAILY_GOAL_ML
               = clamp (clamp (remainingMl s - b) 0 DAILY_GOAL_ML - a) 0
                   DAILY_GOAL_ML)
    by (unfold clamp, DAILY_GOAL_ML; lia).
  rewrite Hr. f_equal.
  assert (Ha : clamp (remainingMl s - a) 0 DAILY_GOAL_ML = 0 ->
               clamp (clamp (remainingMl s - b) 0 DAILY_GOAL_ML - a) 0
                 DAILY_GOAL_ML = 0)
    by (unfold clamp, DAILY_GOAL_ML; lia).
  assert (Hb' : clamp (remainingMl s - b) 0 DAILY_GOAL_ML = 0 ->
                clamp (clamp (remainingMl s - b) 0 DAILY_GOAL_ML - a) 0
                  DAILY_GOAL_ML = 0)
    by (unfold clamp, DAILY_GOAL_ML; lia).
  intake_cases.
Qed.

(** X6 with an accepted and a refused input. *)
Lemma intake_commutes_mixed :
  let s := mkState 600 2 (js "2024-01-01") false in
  in_bounds s
  /\ applyIntake (applyIntake s (js "900")) (js "abc")
     = applyIntake (applyIntake s (js "abc")) (js "900").
Proof.
  cbv zeta.
  assert (Hb : in_bounds (mkState 600 2 (js "2024-01-01") false))
    by (unfold in_bounds; cbn; unfold DAILY_GOAL_ML; lia).
  split; [exact Hb|].
  exact (intake_commutes _ (js "900") (js "abc") Hb).
Defined.

(** ** Streak and date along a run *)

Lemma lastDate_rollover (s : HydrationState) (today : JSString) :
  lastDate (rollover s today) = today.
Proof.
  unfold rollover, hydrateStateForToday.
  destruct (str_eqb (lastDate s) today) eqn:E; [|reflexivity].
  now apply str_eqb_eq.
Qed.

Lemma streak_step (s : HydrationState) (e : Event) :
  0 <= streak s ->
  0 <= streak (step s e) <= streak s + Z.of_nat (count_loads [e]).
Proof.
  intros H. destruct e as [today | rawInput]; cbn [step].
  - change (count_loads [Load today]) with 1%nat.
    unfold rollover, hydrateStateForToday.
    destruct (str_eqb (lastDate s) today); cbn [streak].
    + lia.
    + destruct (completedToday s); lia.
  - change (count_loads [AddWater rawInput]) with 0%nat.
    rewrite applyIntake_unfold.
    destruct (parseIntSafe rawInput <=? 0); cbn [streak]; lia.
Qed.

Lemma count_loads_cons (e : Event) (es : list Event) :
  count_loads (e :: es) = (count_loads [e] + count_loads es)%nat.
Proof. unfold count_loads. cbn [filter]. destruct e; reflexivity. Qed.

Lemma streak_run (es : list Event) (s : HydrationState) :
  0 <= streak s ->
  0 <= streak (run s es) <= streak s + Z.of_nat (count_loads es).
Proof.
  revert s. induction es as [|e es IH]; intros s H; cbn [run fold_left].
  - unfold count_loads; simpl; lia.
  - pose proof (streak_step s e H) as Hs.
    specialize (IH (step s e) (proj1 Hs)). unfold run in IH.
    rewrite count_loads_cons. lia.
Qed.

(** X7. Along every run from the initial state the streak is never
    negative and never exceeds the number of loads: only a load can raise
    it, and by one at most. *)
Theorem streak_bounded_by_loads (today0 : JSString) (es : list Event) :
  0 <= streak (run (buildInitialState today0) es) <= Z.of_nat (count_loads es).
Proof.
  pose proof (streak_run es (buildInitialState today0)) as H.
  cbn [streak buildInitialState] in H. apply H. lia.
Qed.

(** X8. After a run the recorded date is the date of the last load, and the
    date the run started with when nothing was loaded: intakes never move
    it, and a load always leaves its own date. *)
Theorem lastDate_is_last_load (s : HydrationState) (es : list Event) :
  lastDate (run s es) = last_load_date (lastDate s) es.
Proof.
  revert s. induction es as [|e es IH]; intros s; [reflexivity|].
  unfold run, last_load_date in *. cbn [fold_left]. rewrite IH. f_equal.
  destruct e as [today | rawInput]; cbn [step].
  - apply lastDate_rollover.
  - rewrite applyIntake_unfold.
    destruct (parseIntSafe rawInput <=? 0); reflexivity.
Qed.

Lemma accepted_nonneg (rawInput : JSString) : 0 <= accepted rawInput.
Proof. unfold accepted. lia. Qed.

Lemma total_accepted_nonneg (rawInputs : list JSString) :
  0 <= total_accepted rawInputs.
Proof.
  induction rawInputs as [|x l IH]; cbn [total_accepted fold_right]; [lia|].
  pose proof (accepted_nonneg x). unfold total_accepted in IH. lia.
Qed.

Lemma intakes_of_a_day (rawInputs : list JSString) (s : HydrationState) :
  in_bounds s ->
  completedToday s = (remainingMl s =? 0) ->
  let s' := run s (map AddWater rawInputs) in
  remainingMl s' = Z.max 0 (remainingMl s - total_accepted rawInputs)
  /\ completedToday s' = (remainingMl s' =? 0)
  /\ streak s' = streak s
  /\ lastDate s' = lastDate s.
Proof.
  revert s. induction rawInputs as [|x l IH]; intros s Hb Hc; cbv zeta.
  - cbn. unfold in_bounds in Hb. repeat split; try assumption. lia.
  - cbn [map run fold_left step]. fold (run (applyIntake s x) (map AddWater l)).
    pose proof (applyIntake_in_bounds s x Hb) as Hb1.
    assert (H1 : remainingMl (applyIntake s x)
                 = Z.max 0 (remainingMl s - accepted x)
                 /\ completedToday (applyIntake s x)
                    = (remainingMl (applyIntake s x) =? 0)
                 /\ streak (applyIntake s x) = streak s
                 /\ lastDate (applyIntake s x) = lastDate s).
    { rewrite applyIntake_unfold. unfold accepted, in_bounds, DAILY_GOAL_ML in *.
      destruct (parseIntSafe x <=? 0) eqn:E.
      - apply Z.leb_le in E. repeat split; try assumption. lia.
      - apply Z.leb_gt in E. cbn [remainingMl completedToday streak lastDate].
        rewrite Hc. unfold clamp, DAILY_GOAL_ML.
        repeat split; try lia; intake_cases. }
    destruct H1 as (Hr1 & Hc1 & Hs1 & Hd1).
    destruct (IH (applyIntake s x) Hb1 Hc1) as (Hr & Hc' & Hs & Hd).
    cbv zeta in Hr, Hc', Hs, Hd.
    rewrite Hs, Hd, Hs1, Hd1.
    repeat split; try assumption.
    rewrite Hr, Hr1. cbn [total_accepted fold_right].
    fold (total_accepted l).
    pose proof (total_accepted_nonneg l). pose proof (accepted_nonneg x). lia.
Qed.

(** X9. A day decides the streak by its total: starting a day with the
    full goal remaining, after any list of inputs the remaining volume is
    the goal less the accepted amounts (not below [0]), the day is complete
    exactly when these amounts sum to the goal or more, and the next
    rollover raises the streak by one in that case and resets it to [0]
    otherwise. *)
Theorem day_total_decides_streak
    (s : HydrationState) (rawInputs : list JSString) (today : JSString) :
  remainingMl s = DAILY_GOAL_ML ->
  completedToday s = false ->
  today <> lastDate s ->
  let evening := run s (map AddWater rawInputs) in
  remainingMl evening = Z.max 0 (DAILY_GOAL_ML - total_accepted rawInputs)
  /\ completedToday evening = (DAILY_GOAL_ML <=? total_accepted rawInputs)
  /\ streak (rollover evening today)
     = if DAILY_GOAL_ML <=? total_accepted rawInputs then streak s + 1 else 0.
Proof.
  intros Hr Hc Hday. cbv zeta.
  assert (Hb : in_bounds s) by (unfold in_bounds, DAILY_GOAL_ML in *; lia).
  assert (Hflag : completedToday s = (remainingMl s =? 0))
    by (rewrite Hc, Hr; reflexivity).
  destruct (intakes_of_a_day rawInputs s Hb Hflag) as (Hr' & Hc' & Hs' & Hd').
  cbv zeta in Hr', Hc', Hs', Hd'. rewrite Hr in Hr'.
  assert (Hdone : completedToday (run s (map AddWater rawInputs))
                  = (DAILY_GOAL_ML <=? total_accepted rawInputs)).
  { rewrite Hc', Hr'.
    destruct (Z.leb_spec DAILY_GOAL_ML (total_accepted rawInputs));
      [apply Z.eqb_eq|apply Z.eqb_neq]; lia. }
  split; [exact Hr'|]. split; [exact Hdone|].
  rewrite rollover_changed_day by (rewrite Hd'; exact Hday).
  cbn [streak]. now rewrite Hdone, Hs'.
Qed.

(** X9 on a day of three glasses that reach the goal and a later empty
    day. *)
Lemma day_total_decides_streak_reached :
  let s := mkState 2000 4 (js "2024-01-01") false in
  let drinks := [js "750"; js "nothing"; js "500ml"; js "800"] in
  total_accepted drinks = 2050
  /\ completedToday (run s (map AddWater drinks)) = true
  /\ streak (rollover (run s (map AddWater drinks)) (js "2024-01-02")) = 5.
Proof.
  cbv zeta.
  assert (Hday : js "2024-01-02" <> js "2024-01-01")
    by (vm_compute; discriminate).
  destruct (day_total_decides_streak
              (mkState 2000 4 (js "2024-01-01") false)
              [js "750"; js "nothing"; js "500ml"; js "800"]
              (js "2024-01-02") eq_refl eq_refl Hday) as (_ & Hc & Hs).
  split; [reflexivity|]. split; [exact Hc|exact Hs].
Defined.

(** ** Startup with arbitrary payloads *)

Lemma loadState_cases
    (JSON_parse : JSString -> Completion Parsed)
    (today : JSString) (got : GetItem) :
  loadState JSON_parse today got
    = Normal (hooks_of_state (buildInitialState today))
  \/ exists c text p h,
       got = Resolved (Some (c :: text))
       /\ JSON_parse (c :: text) = Normal p
       /\ (hydrated <- hydrateStateForToday_js today p ;;
           setStateFromStorage hydrated) = Normal h
       /\ loadState JSON_parse today got = Normal h.
Proof.
  unfold loadState.
  destruct got as [|[[|c text]|]]; cbn [getItem_completion bind].
  - left. apply loadState_fallback.
  - left. apply loadState_initial.
  - destruct (JSON_parse (c :: text)) as [p|] eqn:Hparse; cbn [bind].
    + destruct (hydrated <- hydrateStateForToday_js today p ;;
                setStateFromStorage hydrated) as [h|] eqn:Hbody.
      * right. exists c, text, p, h. auto.
      * left. apply loadState_fallback.
    + left. apply loadState_fallback.
  - left. apply loadState_initial.
Qed.

(** X10. Whatever the storage answers, and whether the text fails to parse
    or parses to a value whose properties are primitives, the startup ends
    with the date hook set to today's key. *)
Theorem startup_lastDate_today
    (JSON_parse : JSString -> Completion Parsed)
    (today : JSString) (got : GetItem) :
  exists h,
    loadState JSON_parse today got = Normal h
    /\ h_lastDate h = JString today.
Proof.
  destruct (loadState_cases JSON_parse today got)
    as [H | (c & text & p & h & _ & _ & Hbody & H)].
  - eexists. split; [exact H|reflexivity].
  - exists h. split; [exact H|].
    destruct (hydrate_then_set today p h Hbody)
      as (last & completed & Hlast & _ & Hsame & Hnew).
    destruct (strict_eq_string last today) eqn:E.
    + destruct (Hsame eq_refl) as [-> Hset].
      unfold setStateFromStorage in Hset.
      destruct (get_all_or_none p k_lastDate k_remainingMl _ Hlast) as [v1 E1].
      destruct (get_all_or_none p k_lastDate k_streak _ Hlast) as [v2 E2].
      destruct (get_all_or_none p k_lastDate k_completedToday _ Hlast)
        as [v4 E4].
      rewrite E1, E2, Hlast, E4 in Hset. cbn [bind] in Hset.
      now injection Hset as <-.
    + destruct (Hnew eq_refl) as (st & -> & _). reflexivity.
Qed.

Lemma rollover_streak_nonneg (s : HydrationState) (today : JSString) :
  0 <= streak s -> 0 <= streak (rollover s today).
Proof.
  intros H. unfold rollover, hydrateStateForToday.
  destruct (str_eqb (lastDate s) today); [exact H|].
  cbn [streak]. destruct (completedToday s); lia.
Qed.

(** X11. A stored text that parses to a valid state is restored as a valid
    state: the hooks receive its rollover for today, which again has its
    remaining volume within the bounds and a streak that is not negative. *)
Theorem startup_valid_payload
    (JSON_parse : JSString -> Completion Parsed)
    (today : JSString) (c : N) (text : JSString) (p : Parsed) :
  JSON_parse (c :: text) = Normal p ->
  has_state_shape p ->
  exists s,
    p = object_of_state s
    /\ loadState JSON_parse today (Resolved (Some (c :: text)))
       = Normal (hooks_of_state (rollover s today))
    /\ valid_hooks (hooks_of_state (rollover s today)).
Proof.
  intros Hparse (s & -> & Hb & Hs). exists s.
  split; [reflexivity|]. split.
  - unfold loadState. cbn [getItem_completion bind]. rewrite Hparse.
    cbn [bind]. rewrite hydrateStateForToday_js_object. cbn [bind].
    rewrite setStateFromStorage_object. reflexivity.
  - exists (rollover s today). split; [reflexivity|].
    split; [now apply rollover_in_bounds|now apply rollover_streak_nonneg].
Qed.

(** X11 on yesterday's completed state. *)
Lemma startup_valid_payload_yesterday :
  let stored := mkState 0 6 (js "2024-01-01") true in
  let text := js "stored state" in
  has_state_shape (object_of_state stored)
  /\ loadState (parse_only text (object_of_state stored)) (js "2024-01-02")
       (Resolved (Some text))
     = Normal (hooks_of_state (mkState 2000 7 (js "2024-01-02") false)).
Proof.
  cbv zeta.
  assert (Hshape : has_state_shape
                     (object_of_state (mkState 0 6 (js "2024-01-01") true))).
  { eexists. split; [reflexivity|].
    cbn; unfold DAILY_GOAL_ML; lia. }
  split; [exact Hshape|].
  destruct (startup_valid_payload
              (parse_only (js "stored state")
                 (object_of_state (mkState 0 6 (js "2024-01-01") true)))
              (js "2024-01-02") 115%N (js "tored state")
              (object_of_state (mkState 0 6 (js "2024-01-01") true))
              eq_refl Hshape) as (s & Hs & Hload & _).
  destruct s as [r k d f]. unfold object_of_state in Hs. cbn in Hs.
  injection Hs as Hr Hk Hd Hf. subst r k d f. exact Hload.
Defined.

(** X12. A payload of another day, whatever its shape, starts a fresh day:
    the bottle is full, the flag is cleared, the date is today; and unless
    its [completedToday] is truthy the streak is [0], so that the hooks hold
    exactly the initial state. *)
Theorem startup_stale_payload
    (JSON_parse : JSString -> Completion Parsed)
    (today : JSString) (c : N) (text : JSString) (p : Parsed)
    (last completed : JSValue) :
  JSON_parse (c :: text) = Normal p ->
  get p k_lastDate = Normal last ->
  strict_eq_string last today = false ->
  get p k_completedToday = Normal completed ->
  exists st,
    loadState JSON_parse today (Resolved (Some (c :: text)))
    = Normal (mkHooks (JNumber DAILY_GOAL_ML) st (JString today) (JBool false))
    /\ (ToBoolean completed = false -> st = JNumber 0).
Proof. apply loadState_stale. Qed.

(** X12 on an old payload with a text where the volume belongs. *)
Lemma startup_stale_payload_garbled :
  let p := PObject [ (k_remainingMl, JString (js "lots"));
                     (k_lastDate, JString (js "2023-12-31")) ] in
  let text := js "old payload" in
  loadState (parse_only text p) (js "2024-01-02") (Resolved (Some text))
  = Normal (hooks_of_state (buildInitialState (js "2024-01-02"))).
Proof.
  cbv zeta.
  destruct (startup_stale_payload
              (parse_only (js "old payload")
                 (PObject [ (k_remainingMl, JString (js "lots"));
                            (k_lastDate, JString (js "2023-12-31")) ]))
              (js "2024-01-02") 111%N (js "ld payload") _
              (JString (js "2023-12-31")) JUndefined
              eq_refl eq_refl eq_refl eq_refl) as (st & Hload & Hst).
  rewrite (Hst eq_refl) in Hload. exact Hload.
Defined.

(** ** Signs and leading white space in the input *)

Lemma trimStart_spaces (ws x : JSString) :
  forallb Number.isStrWhiteSpaceChar ws = true ->
  Number.trimStart (ws ++ x) = Number.trimStart x.
Proof.
  intros H. induction ws as [|c ws IH]; [reflexivity|].
  cbn [forallb] in H. apply andb_true_iff in H as [Hc H].
  cbn [app Number.trimStart]. rewrite Hc. now apply IH.
Qed.

Lemma parseInt10_trimStart (x : JSString) :
  Number.parseInt10 x = Number.parseInt10 (Number.trimStart x).
Proof.
  unfold Number.parseInt10.
  assert (H : Number.trimStart (Number.trimStart x) = Number.trimStart x).
  { induction x as [|c x IH]; [reflexivity|].
    cbn [Number.trimStart].
    destruct (Number.isStrWhiteSpaceChar c) eqn:E; [exact IH|].
    cbn [Number.trimStart]. now rewrite E. }
  now rewrite H.
Qed.

Lemma takeDigits_digits (x : JSString) :
  forallb Number.isDigit (Number.takeDigits x) = true.
Proof.
  induction x as [|c x IH]; [reflexivity|].
  cbn [Number.takeDigits]. destruct (Number.isDigit c) eqn:E; [|reflexivity].
  cbn [forallb]. now rewrite E, IH.
Qed.

Lemma digitsValue_nonneg (ds : JSString) :
  forallb Number.isDigit ds = true -> 0 <= Number.digitsValue ds.
Proof.
  unfold Number.digitsValue.
  assert (H : forall acc, 0 <= acc ->
              forallb Number.isDigit ds = true ->
              0 <= fold_left (fun acc c => 10 * acc + (Z.of_N c - 48)) ds acc).
  { induction ds as [|c ds IH]; intros acc Hacc Hds; [exact Hacc|].
    cbn [forallb] in Hds. apply andb_true_iff in Hds as [Hc Hds].
    cbn [fold_left]. apply IH; [|exact Hds].
    unfold Number.isDigit in Hc. apply andb_true_iff in Hc as [Hlo _].
    apply N.leb_le in Hlo. lia. }
  apply H. lia.
Qed.

Lemma minus_not_space : Number.isStrWhiteSpaceChar Number.minus = false.
Proof. reflexivity. Qed.

Lemma plus_not_space : Number.isStrWhiteSpaceChar Number.plus = false.
Proof. reflexivity. Qed.

(** X13. White space before the amount does not matter, and neither does a
    plus sign in front of a digit: such an input is taken like the text
    that follows. *)
Theorem intake_ignores_leading_space
    (s : HydrationState) (ws x : JSString) (c : N) :
  forallb Number.isStrWhiteSpaceChar ws = true ->
  Number.isDigit c = true ->
  Number.parseInt10 (ws ++ x) = Number.parseInt10 x
  /\ applyIntake s (ws ++ x) = applyIntake s x
  /\ Number.parseInt10 (ws ++ Number.plus :: c :: x)
     = Number.parseInt10 (c :: x)
  /\ applyIntake s (ws ++ Number.plus :: c :: x) = applyIntake s (c :: x).
Proof.
  intros Hws Hc.
  assert (H1 : Number.parseInt10 (ws ++ x) = Number.parseInt10 x).
  { rewrite (parseInt10_trimStart (ws ++ x)), (parseInt10_trimStart x).
    now rewrite trimStart_spaces. }
  assert (H2 : Number.parseInt10 (ws ++ Number.plus :: c :: x)
               = Number.parseInt10 (c :: x)).
  { rewrite (parseInt10_trimStart (ws ++ _)), trimStart_spaces by exact Hws.
    unfold Number.parseInt10. cbn [Number.trimStart].
    rewrite plus_not_space, (digit_not_space c Hc).
    cbn [Number.trimStart]. rewrite plus_not_space.
    destruct (digit_not_sign c Hc) as [Hp Hm]. rewrite Hp, Hm.
    reflexivity. }
  split; [exact H1|]. split.
  - rewrite !applyIntake_unfold. unfold parseIntSafe. now rewrite H1.
  - split; [exact H2|].
    rewrite !applyIntake_unfold. unfold parseIntSafe. now rewrite H2.
Qed.

(** X13 on an amount typed after a tab and a space. *)
Lemma intake_ignores_leading_space_tab :
  let s := buildInitialState (js "2024-01-01") in
  applyIntake s ([9; 32]%N ++ js "250") = applyIntake s (js "250")
  /\ applyIntake s ([9; 32]%N ++ js "+250") = applyIntake s (js "250")
  /\ remainingMl (applyIntake s (js "250")) = 1750.
Proof.
  cbv zeta.
  destruct (intake_ignores_leading_space
              (buildInitialState (js "2024-01-01")) [9; 32]%N (js "250") 50%N
              eq_refl eq_refl) as (_ & H1 & _).
  destruct (intake_ignores_leading_space
              (buildInitialState (js "2024-01-01")) [9; 32]%N (js "50") 50%N
              eq_refl eq_refl) as (_ & _ & _ & H2).
  split; [exact H1|]. split; [exact H2|reflexivity].
Defined.

(** X14. An input whose first character after the white space is a minus
    sign is never an intake, whatever follows the sign: it parses to [NaN]
    or to a number that is not positive, and the state stays as it is. *)
Theorem intake_minus_refused
    (s : HydrationState) (ws rest : JSString) :
  forallb Number.isStrWhiteSpaceChar ws = true ->
  parseIntSafe (ws ++ Number.minus :: rest) <= 0
  /\ applyIntake s (ws ++ Number.minus :: rest) = s.
Proof.
  intros Hws.
  assert (H : parseIntSafe (ws ++ Number.minus :: rest) <= 0).
  { unfold parseIntSafe.
    rewrite (parseInt10_trimStart (ws ++ _)), trimStart_spaces by exact Hws.
    unfold Number.parseInt10. cbn [Number.trimStart].
    rewrite minus_not_space. cbn [Number.trimStart]. rewrite minus_not_space.
    rewrite N.eqb_refl, orb_true_r.
    pose proof (digitsValue_nonneg _ (takeDigits_digits rest)) as Hv.
    destruct (Number.takeDigits rest); lia. }
  split; [exact H|now apply applyIntake_nonpositive].
Qed.

(** X14 on ["-250ml"] typed after a space. *)
Lemma intake_minus_refused_250 :
  let s := mkState 900 1 (js "2024-01-01") false in
  parseIntSafe (js " -250ml") = -250
  /\ applyIntake s (js " -250ml") = s.
Proof.
  cbv zeta. split; [reflexivity|].
  destruct (intake_minus_refused (mkState 900 1 (js "2024-01-01") false)
              [32%N] (js "250ml") eq_refl) as [_ H].
  exact H.
Defined.

(** ** The fill level *)

Lemma progress_checked : all_upto 2001 Fill.progress_check = true.
Proof. vm_compute. reflexivity. Qed.

Lemma progress_steps_checked :
  all_upto 2000 Fill.progress_step_check = true.
Proof. vm_compute. reflexivity. Qed.

(** The order of the specification's floats is transitive. *)
Lemma SFltb_trans (a b c : SpecFloat.spec_float) :
  SpecFloat.SFltb a b = true ->
  SpecFloat.SFltb b c = true ->
  SpecFloat.SFltb a c = true.
Proof.
  unfold SpecFloat.SFltb, SpecFloat.SFcompare.
  destruct a as [sa|sa| |sa ma ea], b as [sb|sb| |sb mb eb],
    c as [sc|sc| |sc mc ec];
    repeat match goal with s : bool |- _ => destruct s end;
    try discriminate; try reflexivity;
    change PosDef.Pos.compare_cont with Pos.compare_cont;
    fold (Pos.compare ma mb); fold (Pos.compare mb mc);
    fold (Pos.compare ma mc);
    destruct (Z.compare_spec ea eb), (Z.compare_spec eb ec),
      (Z.compare_spec ea ec);
    try discriminate; try reflexivity; try lia;
    destruct (Pos.compare_spec ma mb), (Pos.compare_spec mb mc),
      (Pos.compare_spec ma mc);
    cbn [CompOpp]; try discriminate; try reflexivity; lia.
Qed.

Lemma float_ltb_trans (x y z : PrimFloat.float) :
  PrimFloat.ltb x y = true -> PrimFloat.ltb y z = true ->
  PrimFloat.ltb x z = true.
Proof. rewrite !FloatAxioms.ltb_spec. apply SFltb_trans. Qed.

Lemma progress_decreasing_by (n : nat) (r : Z) :
  0 <= r -> r + 1 + Z.of_nat n <= DAILY_GOAL_ML ->
  PrimFloat.ltb (Fill.progress (r + 1 + Z.of_nat n)) (Fill.progress r) = true.
Proof.
  unfold DAILY_GOAL_ML. intros H0.
  induction n as [|n IH]; intros Hn.
  - replace (r + 1 + Z.of_nat 0) with (r + 1) by lia.
    apply (all_upto_spec 2000 _ progress_steps_checked). lia.
  - apply (float_ltb_trans _ (Fill.progress (r + 1 + Z.of_nat n))).
    + replace (r + 1 + Z.of_nat (S n)) with (r + 1 + Z.of_nat n + 1) by lia.
      apply (all_upto_spec 2000 _ progress_steps_checked). lia.
    + apply IH. lia.
Qed.

(** X15. For a remaining volume within the bounds the fill level, computed
    in doubles, lies between 0 and 1; it is 1 exactly when nothing remains
    and 0 exactly when the whole goal remains; and the height in percent
    lies between 0 and 100. *)
Theorem progress_in_unit_interval (r : Z) :
  0 <= r <= DAILY_GOAL_ML ->
  PrimFloat.leb PrimFloat.zero (Fill.progress r) = true
  /\ PrimFloat.leb (Fill.progress r) PrimFloat.one = true
  /\ (PrimFloat.eqb (Fill.progress r) PrimFloat.one = true <-> r = 0)
  /\ (PrimFloat.eqb (Fill.progress r) PrimFloat.zero = true
      <-> r = DAILY_GOAL_ML)
  /\ PrimFloat.leb PrimFloat.zero (Fill.fill_percent r) = true
  /\ PrimFloat.leb (Fill.fill_percent r) (Fill.number_of_Z 100) = true.
Proof.
  intros Hr.
  assert (H : Fill.progress_check r = true)
    by (apply (all_upto_spec 2001 _ progress_checked);
        unfold DAILY_GOAL_ML in Hr; lia).
  unfold Fill.progress_check in H.
  repeat match type of H with
         | (_ && _) = true =>
             let H' := fresh "Hk" in apply andb_true_iff in H as [H H']
         end.
  apply Bool.eqb_prop in Hk2, Hk1.
  repeat split; try assumption.
  - rewrite Hk2. apply Z.eqb_eq.
  - rewrite Hk2. apply Z.eqb_eq.
  - rewrite Hk1. apply Z.eqb_eq.
  - rewrite Hk1. apply Z.eqb_eq.
Qed.

(** X15 with a quarter of the goal drunk. *)
Lemma progress_in_unit_interval_quarter :
  0 <= 1500 <= DAILY_GOAL_ML
  /\ PrimFloat.leb (Fill.progress 1500) PrimFloat.one = true
  /\ PrimFloat.eqb (Fill.progress 1500)
       (PrimFloat.div PrimFloat.one (Fill.number_of_Z 4)) = true.
Proof.
  assert (H : 0 <= 1500 <= DAILY_GOAL_ML) by (unfold DAILY_GOAL_ML; lia).
  split; [exact H|].
  destruct (progress_in_unit_interval 1500 H) as (_ & H1 & _).
  split; [exact H1|vm_compute; reflexivity].
Defined.

(** X16. Within the bounds the fill level, computed in doubles, is strictly
    higher the less remains: no two remaining volumes show the same
    level. *)
Theorem progress_strictly_decreasing (r1 r2 : Z) :
  0 <= r1 -> r1 < r2 -> r2 <= DAILY_GOAL_ML ->
  PrimFloat.ltb (Fill.progress r2) (Fill.progress r1) = true.
Proof.
  intros H0 H12 H2.
  replace r2 with (r1 + 1 + Z.of_nat (Z.to_nat (r2 - r1 - 1))) by lia.
  apply progress_decreasing_by; [exact H0|lia].
Qed.

(** X16 on 1999 ml and 2000 ml remaining. *)
Lemma progress_strictly_decreasing_last_ml :
  PrimFloat.ltb (Fill.progress 2000) (Fill.progress 1999) = true.
Proof.
  apply (progress_strictly_decreasing 1999 2000);
    unfold DAILY_GOAL_ML; lia.
Defined.

(** ** What the screen shows, typed back *)

Lemma uint_codes_digits (d : Decimal.uint) :
  forallb Number.isDigit (uint_codes d) = true.
Proof. induction d; cbn [uint_codes forallb]; try rewrite IHd; reflexivity. Qed.

Lemma digits_fold_pos (d : Decimal.uint) (p : positive) :
  fold_left (fun acc c => 10 * acc + (Z.of_N c - 48)) (uint_codes d) (Z.pos p)
  = Z.pos (Pos.of_uint_acc d p).
Proof.
  revert p. induction d; intros p; cbn [uint_codes fold_left Pos.of_uint_acc];
    [reflexivity| | | | | | | | | |];
    match goal with
    | |- fold_left _ _ ?a = Z.pos (Pos.of_uint_acc _ ?q) =>
        replace a with (Z.pos q) by lia; apply IHd
    end.
Qed.

Lemma digitsValue_uint_codes (d : Decimal.uint) :
  Number.digitsValue (uint_codes d) = Z.of_uint d.
Proof.
  unfold Number.digitsValue, Z.of_uint.
  induction d; cbn [uint_codes fold_left Pos.of_uint];
    [reflexivity|exact IHd| | | | | | | | |];
    match goal with
    | |- fold_left _ _ ?a = Z.of_N (N.pos (Pos.of_uint_acc _ ?q)) =>
        replace a with (Z.pos q) by lia; apply digits_fold_pos
    end.
Qed.

Lemma to_int_codes_nonempty (z : Z) (d : Decimal.uint) :
  Z.to_int z = Decimal.Pos d \/ Z.to_int z = Decimal.Neg d ->
  uint_codes d <> [].
Proof.
  intros H Hnil.
  assert (d = Decimal.Nil) as -> by (destruct d; cbn in Hnil; congruence).
  destruct z as [|p|p]; cbn [Z.to_int] in H; destruct H as [H | H];
    try discriminate H; injection H as H.
  - pose proof (DecimalPos.Unsigned.of_to p) as Hp.
    rewrite H in Hp. discriminate Hp.
  - pose proof (DecimalPos.Unsigned.of_to p) as Hp.
    rewrite H in Hp. discriminate Hp.
Qed.

Lemma parseInt10_toString (z : Z) :
  Number.parseInt10 (Number_toString z) = Some z.
Proof.
  unfold Number_toString.
  pose proof (DecimalZ.of_to z) as Hz.
  destruct (Z.to_int z) as [d|d] eqn:E; cbn [Z.of_int] in Hz.
  - pose proof (parseInt10_leading_digits (uint_codes d) []
                  (to_int_codes_nonempty z d (or_introl E))
                  (uint_codes_digits d) I) as H.
    rewrite app_nil_r in H. rewrite H, digitsValue_uint_codes. now f_equal.
  - pose proof (to_int_codes_nonempty z d (or_intror E)) as Hne.
    pose proof (takeDigits_app (uint_codes d) [] (uint_codes_digits d) I)
      as Htake.
    rewrite app_nil_r in Htake.
    unfold Number.parseInt10. cbn [Number.trimStart].
    rewrite minus_not_space, N.eqb_refl, orb_true_r, Htake.
    destruct (uint_codes d) as [|c l] eqn:Ec; [contradiction|].
    rewrite <- Ec, digitsValue_uint_codes. f_equal. lia.
Qed.

(** X17. The number on the screen reads back as itself: the decimal text
    of a safe integer (below [2^53] in magnitude) parses to that integer.
    So typing the remaining volume that is shown empties the bottle and
    completes the day. *)
Theorem shown_amount_completes (s : HydrationState) :
  in_bounds s ->
  0 < remainingMl s ->
  (forall z, Z.abs z < 2 ^ 53 -> parseIntSafe (Number_toString z) = z)
  /\ remainingMl (applyIntake s (Number_toString (remainingMl s))) = 0
  /\ completedToday (applyIntake s (Number_toString (remainingMl s))) = true.
Proof.
  intros Hb Hpos.
  assert (Hparse : forall z, parseIntSafe (Number_toString z) = z)
    by (intros z; apply parseIntSafe_of_parse, parseInt10_toString).
  split; [intros z _; apply Hparse|].
  rewrite applyIntake_positive by (rewrite Hparse; exact Hpos).
  rewrite Hparse, Z.sub_diag. cbn [remainingMl completedToday].
  split; reflexivity.
Qed.

(** X17 with 1250 ml on the screen. *)
Lemma shown_amount_completes_1250 :
  let s := mkState 1250 0 (js "2024-01-01") false in
  Number_toString 1250 = js "1250"
  /\ applyIntake s (js "1250") = mkState 0 0 (js "2024-01-01") true.
Proof.
  cbv zeta. split; [reflexivity|].
  assert (Hb : in_bounds (mkState 1250 0 (js "2024-01-01") false))
    by (unfold in_bounds; cbn; unfold DAILY_GOAL_ML; lia).
  assert (Hpos : 0 < remainingMl (mkState 1250 0 (js "2024-01-01") false))
    by (cbn; lia).
  destruct (shown_amount_completes _ Hb Hpos) as (_ & Hr & Hc).
  rewrite applyIntake_unfold in *. cbn in *. reflexivity.
Defined.

(** ** The bottle and the flag *)

(** X18. In every state a run reaches from the initial state the bottle is
    shown full (fill level 1, in doubles) exactly when the day is flagged
    complete. *)
Theorem full_bottle_iff_completed (today0 : JSString) (es : list Event) :
  let s := run (buildInitialState today0) es in
  PrimFloat.eqb (Fill.progress (remainingMl s)) PrimFloat.one
  = completedToday s.
Proof.
  cbv zeta.
  destruct (run_history_invariant false es _ (flag_invariant_initial today0))
    as [(Hb & Hc & _) Hr].
  cbn [fst] in Hr. rewrite Hr in Hb, Hc. rewrite Hc.
  assert (H : Fill.progress_check
                (remainingMl (run (buildInitialState today0) es)) = true)
    by (apply (all_upto_spec 2001 _ progress_checked);
        unfold in_bounds, DAILY_GOAL_ML in Hb; lia).
  unfold Fill.progress_check in H.
  repeat match type of H with
         | (_ && _) = true =>
             let H' := fresh "Hk" in apply andb_true_iff in H as [H H']
         end.
  now apply Bool.eqb_prop in Hk2.
Qed.
